(** * becquerel.tools.isotope: isotope identifiers and decay quantities

    A shallow embedding of [becquerel/tools/isotope.py] and the properties
    its specification states about it.

    Conventions of the embedding.

    - Python exceptions are values of [exn]; a function that may raise
      returns [result A].
    - Python floats are modelled by the extended reals of [float]: a real
      number, the two infinities, or nan.  Rounding, overflow of finite
      results and the sign of zero are not modelled, so an equation the
      program satisfies up to floating tolerance is an equality here.
      Division follows Python's [float.__truediv__]: a zero divisor raises
      [ZeroDivisionError].
    - A [datetime] is a real number of seconds since 1970-01-01 00:00:00;
      the microsecond resolution of [datetime.timedelta] is not modelled,
      the ranges of [datetime] and [timedelta] are.
    - Strings are Python 3 strings of characters with code points below
      256, one [ascii] per character; [isalpha], [isdigit], [lower] and
      the whitespace of [int] are Python's on these characters. *)

From Stdlib Require Import Reals Lra ZArith Lia List Ascii String Bool.
From stdpp Require Import gmap strings pretty.

Import ListNotations.
Open Scope string_scope.

(** ** Exceptions and the error monad *)

Inductive exn : Type :=
| IsotopeError (msg : string)
| ElementError
| ValueError
| TypeError
| AttributeError
| IndexError
| ZeroDivisionError
| OverflowError
| NotImplementedError.

Inductive result (A : Type) : Type :=
| Ok (a : A)
| Raise (e : exn).

Arguments Ok {A} a.
Arguments Raise {A} e.

#[global] Instance result_ret : MRet result := fun A a => Ok a.

#[global] Instance result_bind : MBind result := fun A B k r =>
  match r with
  | Ok a => k a
  | Raise e => Raise e
  end.

Definition raises {A : Type} (r : result A) : Prop :=
  exists e, r = Raise e.

(** ** Python floats as extended reals *)

Module PyFloat.

Inductive float : Type :=
| Num (r : R)
| PInf
| NInf
| NaN.

Definition isfinite (x : float) : bool :=
  match x with
  | Num _ => true
  | _ => false
  end.

Definition Rltb (a b : R) : bool := if Rlt_dec a b then true else false.
Definition Reqb (a b : R) : bool := if Req_dec_T a b then true else false.

(** [x < y], false as soon as one side is nan. *)
Definition flt (x y : float) : bool :=
  match x, y with
  | NaN, _ | _, NaN => false
  | Num a, Num b => Rltb a b
  | NInf, (Num _ | PInf) => true
  | Num _, PInf => true
  | _, _ => false
  end.

Definition feq (x y : float) : bool :=
  match x, y with
  | Num a, Num b => Reqb a b
  | PInf, PInf | NInf, NInf => true
  | _, _ => false
  end.

Definition fneg (x : float) : float :=
  match x with
  | Num a => Num (- a)
  | PInf => NInf
  | NInf => PInf
  | NaN => NaN
  end.

(** The infinity of sign [pos] times the real [a]; nan for [a = 0]. *)
Definition inf_times (pos : bool) (a : R) : float :=
  if Reqb a 0 then NaN
  else if Bool.eqb pos (Rltb 0 a) then PInf else NInf.

Definition fmul (x y : float) : float :=
  match x, y with
  | NaN, _ | _, NaN => NaN
  | Num a, Num b => Num (a * b)
  | PInf, Num b | Num b, PInf => inf_times true b
  | NInf, Num b | Num b, NInf => inf_times false b
  | PInf, PInf | NInf, NInf => PInf
  | PInf, NInf | NInf, PInf => NInf
  end.

Definition fadd (x y : float) : float :=
  match x, y with
  | NaN, _ | _, NaN => NaN
  | Num a, Num b => Num (a + b)
  | PInf, NInf | NInf, PInf => NaN
  | PInf, _ | _, PInf => PInf
  | NInf, _ | _, NInf => NInf
  end.

Definition fsub (x y : float) : float := fadd x (fneg y).

(** [x / y] of Python floats. *)
Definition fdiv (x y : float) : result float :=
  match x, y with
  | _, Num b =>
      if Reqb b 0 then Raise ZeroDivisionError
      else match x with
           | Num a => Ok (Num (a / b))
           | PInf => Ok (inf_times true b)
           | NInf => Ok (inf_times false b)
           | NaN => Ok NaN
           end
  | NaN, _ | _, NaN => Ok NaN
  | Num _, _ => Ok (Num 0)
  | _, _ => Ok NaN
  end.

(** [2 ** x]. *)
Definition pow2 (x : float) : float :=
  match x with
  | Num a => Num (Rpower 2 a)
  | PInf => PInf
  | NInf => Num 0
  | NaN => NaN
  end.

(** [np.exp(x)]. *)
Definition np_exp (x : float) : float :=
  match x with
  | Num a => Num (exp a)
  | PInf => PInf
  | NInf => Num 0
  | NaN => NaN
  end.

(** [np.log2(x)]: [-inf] at zero and nan below it (numpy warns, it does
    not raise). *)
Definition np_log2 (x : float) : float :=
  match x with
  | Num a =>
      if Reqb a 0 then NInf
      else if Rltb a 0 then NaN
      else Num (ln a / ln 2)
  | PInf => PInf
  | NInf => NaN
  | NaN => NaN
  end.

End PyFloat.
Export PyFloat.

Coercion Num : R >-> float.

(** ** Python strings *)

Module PyStr.

(** [n] is between [lo] and [hi]. *)
Definition within (lo hi n : nat) : bool := (lo <=? n)%nat && (n <=? hi)%nat.

(** The decimal digits 0 to 9, the digits [int] reads. *)
Definition is_decimal (c : ascii) : bool := within 48 57 (nat_of_ascii c).

(** [c.isdigit()]: the decimal digits and the superscripts two, three and
    one (code points 178, 179 and 185). *)
Definition is_digit (c : ascii) : bool :=
  let n := nat_of_ascii c in
  within 48 57 n || within 178 179 n || within 185 185 n.

(** The characters [lower] changes: A to Z and the accented capitals. *)
Definition is_upper (c : ascii) : bool :=
  let n := nat_of_ascii c in
  within 65 90 n || within 192 214 n || within 216 222 n.

(** [c.isalpha()]: the letters below code point 256. *)
Definition is_alpha (c : ascii) : bool :=
  let n := nat_of_ascii c in
  within 65 90 n || within 97 122 n || within 170 170 n || within 181 181 n ||
  within 186 186 n || within 192 214 n || within 216 246 n ||
  within 248 255 n.

(** The characters of ASCII. *)
Definition is_ascii (c : ascii) : bool := (nat_of_ascii c <? 128)%nat.

Definition lower_char (c : ascii) : ascii :=
  if is_upper c then ascii_of_nat (nat_of_ascii c + 32) else c.

Fixpoint all_chars (f : ascii -> bool) (s : string) : bool :=
  match s with
  | EmptyString => true
  | String c s' => f c && all_chars f s'
  end.

Definition nonempty (s : string) : bool :=
  match s with
  | EmptyString => false
  | String _ _ => true
  end.

(** [s.isalpha()] and [s.isdigit()]: false on the empty string. *)
Definition isalpha (s : string) : bool := nonempty s && all_chars is_alpha s.
Definition isdigit (s : string) : bool := nonempty s && all_chars is_digit s.

(** [s.lower()]. *)
Fixpoint lower (s : string) : string :=
  match s with
  | EmptyString => EmptyString
  | String c s' => String (lower_char c) (lower s')
  end.

(** [c in s] for a one-character [c]. *)
Fixpoint contains (c : ascii) (s : string) : bool :=
  match s with
  | EmptyString => false
  | String d s' => Ascii.eqb c d || contains c s'
  end.

(** [s.split(c)] for a one-character separator: always at least one token. *)
Fixpoint split (c : ascii) (s : string) : list string :=
  match s with
  | EmptyString => [EmptyString]
  | String d s' =>
      if Ascii.eqb c d then EmptyString :: split c s'
      else match split c s' with
           | t :: ts => String d t :: ts
           | [] => [String d EmptyString]
           end
  end.

(** [s[0]]. *)
Definition index0 (s : string) : result ascii :=
  match s with
  | EmptyString => Raise IndexError
  | String c _ => Ok c
  end.

(** [s[j:]] and [s[:j]] for [0 <= j]. *)
Fixpoint slice_from (j : nat) (s : string) : string :=
  match j, s with
  | O, _ => s
  | S j', String _ s' => slice_from j' s'
  | S _, EmptyString => EmptyString
  end.

Fixpoint slice_to (j : nat) (s : string) : string :=
  match j, s with
  | O, _ => EmptyString
  | S j', String c s' => String c (slice_to j' s')
  | S _, EmptyString => EmptyString
  end.

(** The whitespace [int()] strips: tab to carriage return, space, and
    the code points 133 and 160. *)
Definition is_space (c : ascii) : bool :=
  let n := nat_of_ascii c in
  within 9 13 n || within 32 32 n || within 133 133 n || within 160 160 n.

Fixpoint lstrip (s : string) : string :=
  match s with
  | String c s' => if is_space c then lstrip s' else s
  | EmptyString => EmptyString
  end.

(** The value of a run of decimal digits, single underscores allowed
    between digits, followed by whitespace only; read left to right with
    [acc] the value so far; [seen] tells whether the character before is a
    digit. *)
Fixpoint digits_value (seen : bool) (acc : Z) (s : string) : option Z :=
  match s with
  | EmptyString => if seen then Some acc else None
  | String c s' =>
      if is_decimal c then
        digits_value true (10 * acc + Z.of_nat (nat_of_ascii c - 48)) s'
      else if Ascii.eqb c "_" && seen then digits_value false acc s'
      else if seen && all_chars is_space s then Some acc
      else None
  end.

(** [int(s)] of a string: surrounding whitespace, an optional sign, then
    decimal digits.  [None] stands for [ValueError]. *)
Definition int_of_str (s : string) : option Z :=
  match lstrip s with
  | String "+" s' => digits_value false 0 s'
  | String "-" s' => option_map Z.opp (digits_value false 0 s')
  | s' => digits_value false 0 s'
  end.

(** [s.replace(old, new)]: the occurrences of [old] are replaced from
    left to right without overlap; [skip] counts the characters of a
    replaced occurrence still to pass over.  With an empty [old], [new]
    is put before every character and at the end. *)
Fixpoint replace_go (old new : string) (skip : nat) (s : string) : string :=
  match s with
  | EmptyString => EmptyString
  | String c s' =>
      match skip with
      | S k => replace_go old new k s'
      | O =>
          if String.prefix old s
          then new +:+ replace_go old new (String.length old - 1) s'
          else String c (replace_go old new 0 s')
      end
  end.

Fixpoint interleave (new s : string) : string :=
  match s with
  | EmptyString => new
  | String c s' => new +:+ String c (interleave new s')
  end.

Definition replace (old new s : string) : string :=
  match old with
  | EmptyString => interleave new s
  | _ => replace_go old new 0 s
  end.

End PyStr.

(** ** Python values passed to the constructors *)

(** The arguments the [Isotope] constructor is documented to take: strings,
    integers and [None]. *)
Inductive pyval : Type :=
| PStr (s : string)
| PInt (z : Z)
| PNone.

(** What [element.Element] exposes of an element ([atomic_mass] is not
    used by this module). *)
Record Element : Type := mkElement {
  symbol : string;
  name : string;
  atomic_Z : Z
}.

(** ** The identifier parser *)

Section Parser.

(** [element.Element(arg)] lives in [becquerel/tools/element.py]; it is a
    parameter here: [lookup arg] is the element [arg] identifies, [None]
    when the constructor raises [ElementError]. *)
Variable lookup : pyval -> option Element.

Definition element_Element (arg : pyval) : result Element :=
  match lookup arg with
  | Some e => Ok e
  | None => Raise ElementError
  end.

(** The loop over [zip(part1, part2)]: the candidates whose element part
    resolves, as the two lists [element_ids] and [mass_isomers]. *)
Fixpoint collect_candidates (parts : list (string * string))
    (element_ids mass_isomers : list string)
    : result (list string * list string) :=
  match parts with
  | [] => Ok (element_ids, mass_isomers)
  | (p1, p2) :: rest =>
      c1 ← PyStr.index0 p1;
      elem_first ←
        (if PyStr.is_digit c1
         then c2 ← PyStr.index0 p2; Ok (PyStr.is_alpha c2)
         else Ok false);
      if elem_first : bool then
        match lookup (PStr p2) with
        | Some elem =>
            collect_candidates rest
              (element_ids ++ [symbol elem]) (mass_isomers ++ [p1])
        | None => collect_candidates rest element_ids mass_isomers
        end
      else
        mass_first ←
          (if PyStr.is_alpha c1
           then c2 ← PyStr.index0 p2; Ok (PyStr.is_digit c2)
           else Ok false);
        if mass_first : bool then
          match lookup (PStr p1) with
          | Some elem =>
              collect_candidates rest
                (element_ids ++ [symbol elem]) (mass_isomers ++ [p2])
          | None => collect_candidates rest element_ids mass_isomers
          end
        else collect_candidates rest element_ids mass_isomers
  end.

(** The loop choosing the longest element id, from the current choice. *)
Fixpoint choose_longest (cands : list (string * string))
    (element_id mass_isomer : string) : string * string :=
  match cands with
  | [] => (element_id, mass_isomer)
  | (elem, mass) :: rest =>
      if (String.length element_id <? String.length elem)%nat
      then choose_longest rest elem mass
      else choose_longest rest element_id mass_isomer
  end.

(** The hyphen branch of [_split_element_mass], on [tokens]. *)
Definition split_hyphenated (tokens : list string) : result (string * string) :=
  match tokens with
  | [t0; t1] =>
      elem_first ←
        (if PyStr.isalpha t0
         then c ← PyStr.index0 t1; Ok (PyStr.is_digit c)
         else Ok false);
      if elem_first : bool then Ok (t0, t1)
      else
        mass_first ←
          (c ← PyStr.index0 t0;
           Ok (PyStr.is_digit c && PyStr.isalpha t1));
        if mass_first : bool then Ok (t1, t0)
        else Raise (IsotopeError "Could not find mass number for isotope")
  | _ => Raise (IsotopeError "Too many hyphens in isotope string")
  end.

(** The branch of [_split_element_mass] for strings without a hyphen. *)
Definition split_unhyphenated (arg : string) : result (string * string) :=
  let js := seq 1 (String.length arg - 1) in
  let part1 := map (fun j => PyStr.slice_from j arg) js in
  let part2 := map (fun j => PyStr.slice_to j arg) js in
  '(element_ids, mass_isomers) ←
    collect_candidates (combine part1 part2) [] [];
  if (length element_ids =? 0)%nat then
    Raise (IsotopeError "Could not find element for isotope")
  else Ok (choose_longest (combine element_ids mass_isomers) "" "").

Definition _split_element_mass (arg : string) : result (string * string) :=
  '(element_id, mass_isomer) ←
    (if PyStr.contains "-" arg
     then split_hyphenated (PyStr.split "-" arg)
     else split_unhyphenated arg);
  match lookup (PStr element_id) with
  | Some _ => Ok (element_id, mass_isomer)
  | None => Raise (IsotopeError "Element name or symbol is invalid")
  end.

Definition _split_mass_isomer (arg : string) : result (Z * string) :=
  if PyStr.contains "m" (PyStr.lower arg) then
    match PyStr.split "m" (PyStr.lower arg) with
    | [t0; t1] =>
        match PyStr.int_of_str t0 with
        | None =>
            Raise (IsotopeError "Mass number cannot be converted to int")
        | Some aa =>
            if (0 <? String.length t1)%nat then
              if negb (PyStr.isdigit t1) then
                Raise (IsotopeError "Metastable level must be a number")
              else Ok (aa, "m" +:+ t1)
            else Ok (aa, "m")
        end
    | _ => Raise (IsotopeError "Too many ms in mass number")
    end
  else
    match PyStr.int_of_str arg with
    | None => Raise (IsotopeError "Mass number cannot be converted to int")
    | Some aa => Ok (aa, "")
    end.

Definition parse_isotope (arg : string) : result (string * Z * string) :=
  '(element_id, mass_isomer) ← _split_element_mass arg;
  '(mass_number, isomer_level) ← _split_mass_isomer mass_isomer;
  Ok (element_id, mass_number, isomer_level).

End Parser.

(** ** The element table *)

Module PeriodicTable.

(** Modelled from the spec: the Element lookup collaborator
    ([becquerel/tools/element.py], outside this module).  The spec gives
    its interface, [lookup(identifier) -> {symbol, name, Z, ...}] for a
    symbol, a name (both case-insensitive) or an atomic number, failing
    when nothing matches; the rows are the periodic table. *)
Definition elements : list Element := Eval cbv in
  [ mkElement "H" "Hydrogen" 1; mkElement "He" "Helium" 2;
    mkElement "Li" "Lithium" 3; mkElement "Be" "Beryllium" 4;
    mkElement "B" "Boron" 5; mkElement "C" "Carbon" 6;
    mkElement "N" "Nitrogen" 7; mkElement "O" "Oxygen" 8;
    mkElement "F" "Fluorine" 9; mkElement "Ne" "Neon" 10;
    mkElement "Na" "Sodium" 11; mkElement "Mg" "Magnesium" 12;
    mkElement "Al" "Aluminum" 13; mkElement "Si" "Silicon" 14;
    mkElement "P" "Phosphorus" 15; mkElement "S" "Sulfur" 16;
    mkElement "Cl" "Chlorine" 17; mkElement "Ar" "Argon" 18;
    mkElement "K" "Potassium" 19; mkElement "Ca" "Calcium" 20;
    mkElement "Sc" "Scandium" 21; mkElement "Ti" "Titanium" 22;
    mkElement "V" "Vanadium" 23; mkElement "Cr" "Chromium" 24;
    mkElement "Mn" "Manganese" 25; mkElement "Fe" "Iron" 26;
    mkElement "Co" "Cobalt" 27; mkElement "Ni" "Nickel" 28;
    mkElement "Cu" "Copper" 29; mkElement "Zn" "Zinc" 30;
    mkElement "Ga" "Gallium" 31; mkElement "Ge" "Germanium" 32;
    mkElement "As" "Arsenic" 33; mkElement "Se" "Selenium" 34;
    mkElement "Br" "Bromine" 35; mkElement "Kr" "Krypton" 36;
    mkElement "Rb" "Rubidium" 37; mkElement "Sr" "Strontium" 38;
    mkElement "Y" "Yttrium" 39; mkElement "Zr" "Zirconium" 40;
    mkElement "Nb" "Niobium" 41; mkElement "Mo" "Molybdenum" 42;
    mkElement "Tc" "Technetium" 43; mkElement "Ru" "Ruthenium" 44;
    mkElement "Rh" "Rhodium" 45; mkElement "Pd" "Palladium" 46;
    mkElement "Ag" "Silver" 47; mkElement "Cd" "Cadmium" 48;
    mkElement "In" "Indium" 49; mkElement "Sn" "Tin" 50;
    mkElement "Sb" "Antimony" 51; mkElement "Te" "Tellurium" 52;
    mkElement "I" "Iodine" 53; mkElement "Xe" "Xenon" 54;
    mkElement "Cs" "Cesium" 55; mkElement "Ba" "Barium" 56;
    mkElement "La" "Lanthanum" 57; mkElement "Ce" "Cerium" 58;
    mkElement "Pr" "Praseodymium" 59; mkElement "Nd" "Neodymium" 60;
    mkElement "Pm" "Promethium" 61; mkElement "Sm" "Samarium" 62;
    mkElement "Eu" "Europium" 63; mkElement "Gd" "Gadolinium" 64;
    mkElement "Tb" "Terbium" 65; mkElement "Dy" "Dysprosium" 66;
    mkElement "Ho" "Holmium" 67; mkElement "Er" "Erbium" 68;
    mkElement "Tm" "Thulium" 69; mkElement "Yb" "Ytterbium" 70;
    mkElement "Lu" "Lutetium" 71; mkElement "Hf" "Hafnium" 72;
    mkElement "Ta" "Tantalum" 73; mkElement "W" "Tungsten" 74;
    mkElement "Re" "Rhenium" 75; mkElement "Os" "Osmium" 76;
    mkElement "Ir" "Iridium" 77; mkElement "Pt" "Platinum" 78;
    mkElement "Au" "Gold" 79; mkElement "Hg" "Mercury" 80;
    mkElement "Tl" "Thallium" 81; mkElement "Pb" "Lead" 82;
    mkElement "Bi" "Bismuth" 83; mkElement "Po" "Polonium" 84;
    mkElement "At" "Astatine" 85; mkElement "Rn" "Radon" 86;
    mkElement "Fr" "Francium" 87; mkElement "Ra" "Radium" 88;
    mkElement "Ac" "Actinium" 89; mkElement "Th" "Thorium" 90;
    mkElement "Pa" "Protactinium" 91; mkElement "U" "Uranium" 92;
    mkElement "Np" "Neptunium" 93; mkElement "Pu" "Plutonium" 94;
    mkElement "Am" "Americium" 95; mkElement "Cm" "Curium" 96;
    mkElement "Bk" "Berkelium" 97; mkElement "Cf" "Californium" 98;
    mkElement "Es" "Einsteinium" 99; mkElement "Fm" "Fermium" 100;
    mkElement "Md" "Mendelevium" 101; mkElement "No" "Nobelium" 102;
    mkElement "Lr" "Lawrencium" 103; mkElement "Rf" "Rutherfordium" 104;
    mkElement "Db" "Dubnium" 105; mkElement "Sg" "Seaborgium" 106;
    mkElement "Bh" "Bohrium" 107; mkElement "Hs" "Hassium" 108;
    mkElement "Mt" "Meitnerium" 109; mkElement "Ds" "Darmstadtium" 110;
    mkElement "Rg" "Roentgenium" 111; mkElement "Cn" "Copernicium" 112;
    mkElement "Nh" "Nihonium" 113; mkElement "Fl" "Flerovium" 114;
    mkElement "Mc" "Moscovium" 115; mkElement "Lv" "Livermorium" 116;
    mkElement "Ts" "Tennessine" 117; mkElement "Og" "Oganesson" 118 ]%Z.

Definition by_symbol (s : string) : option Element :=
  find (fun e => String.eqb (PyStr.lower (symbol e)) (PyStr.lower s)) elements.

Definition by_name (s : string) : option Element :=
  find (fun e => String.eqb (PyStr.lower (name e)) (PyStr.lower s)) elements.

Definition by_Z (z : Z) : option Element :=
  find (fun e => Z.eqb (atomic_Z e) z) elements.

Definition lookup (arg : pyval) : option Element :=
  match arg with
  | PStr s =>
      match by_symbol s with
      | Some e => Some e
      | None =>
          match by_name s with
          | Some e => Some e
          | None =>
              match PyStr.int_of_str s with
              | Some z => by_Z z
              | None => None
              end
          end
      end
  | PInt z => by_Z z
  | PNone => None
  end.

End PeriodicTable.

(** ** The class [Isotope] *)

Module Isotope.

(** The attributes [__init__] sets: those of the element it inherits and
    [A], [N], [M], [m]. *)
Record t : Type := mk {
  element : Element;
  A : Z;
  N : Z;
  M : Z;
  m : string
}.

Section Init.

Variable lookup : pyval -> option Element.

(** [int(arg)] for the values of [pyval]. *)
Definition int_of (arg : pyval) : result Z :=
  match arg with
  | PInt z => Ok z
  | PStr s =>
      match PyStr.int_of_str s with
      | Some z => Ok z
      | None => Raise ValueError
      end
  | PNone => Raise TypeError
  end.

Definition _init_A (arg : pyval) : result Z :=
  a ← match int_of arg with
      | Raise ValueError =>
          Raise (IsotopeError "Mass number cannot be converted to integer")
      | r => r
      end;
  if (a <? 1)%Z then Raise (IsotopeError "Mass number must be >= 1")
  else Ok a.

(** [_init_m], returning the pair of [self.m] and [self.M]. *)
Definition _init_m (arg : pyval) : result (string * Z) :=
  match arg with
  | PStr "" | PNone | PInt 0 => Ok ("", 0%Z)
  | PInt z =>
      if (z =? 1)%Z then Ok ("m", 1%Z)
      else if (2 <=? z)%Z then Ok ("m" +:+ pretty z, z)
      else Raise (IsotopeError "Metastable level must be >= 0")
  | PStr s =>
      let m := PyStr.lower s in
      c ← PyStr.index0 m;
      if negb (Ascii.eqb c "m") then
        Raise (IsotopeError "Metastable level must start with m")
      else if (1 <? String.length m)%nat then
        if negb (PyStr.isdigit (PyStr.slice_from 1 m)) then
          Raise (IsotopeError "Metastable level must be numeric")
        else
          M ← int_of (PStr (PyStr.slice_from 1 m));
          Ok (m, M)
      else Ok (m, 1%Z)
  end.

(** The end of [__init__]: [N = A - Z] and its check. *)
Definition finish (e : Element) (A : Z) (mM : string * Z) : result t :=
  let N := (A - atomic_Z e)%Z in
  if (N <? 0)%Z then
    Raise (IsotopeError "Neutron number N cannot be negative")
  else Ok (mk e A N (snd mM) (fst mM)).

Definition __init__ (args : list pyval) : result t :=
  match args with
  | [a0] =>
      match a0 with
      | PStr s =>
          '(symbol, aa, mm) ← parse_isotope lookup s;
          e ← element_Element lookup (PStr symbol);
          A ← _init_A (PInt aa);
          mM ← _init_m (PStr mm);
          finish e A mM
      | _ => Raise (IsotopeError "Single argument must be a string")
      end
  | a0 :: a1 :: rest =>
      match rest with
      | [] | [_] =>
          e ← match lookup a0 with
              | Some e => Ok e
              | None => Raise (IsotopeError "Unable to create Isotope")
              end;
          A ← _init_A a1;
          mM ← match rest with
               | [a2] => _init_m a2
               | _ => Ok ("", 0%Z)
               end;
          finish e A mM
      | _ => Raise (IsotopeError "One, two, or three arguments required")
      end
  | [] => Raise (IsotopeError "One, two, or three arguments required")
  end.

End Init.

(** [__format__]: the codes %s, %n, %z, %a and %m are replaced in this
    order; the empty format is '%s-%a%m'. *)
Definition __format__ (self : t) (formatstr : string) : string :=
  let str0 := formatstr in
  let str0 := if (String.length str0 =? 0)%nat then "%s-%a%m" else str0 in
  let str0 := PyStr.replace "%s" (symbol (element self)) str0 in
  let str0 := PyStr.replace "%n" (name (element self)) str0 in
  let str0 := PyStr.replace "%z" (pretty (atomic_Z (element self))) str0 in
  let str0 := PyStr.replace "%a" (pretty (A self)) str0 in
  let str0 := PyStr.replace "%m" (m self) str0 in
  str0.

(** [__str__]: ['{}'.format(self)], the empty format. *)
Definition __str__ (self : t) : string := __format__ self "".

End Isotope.

(** ** The class [IsotopeQuantity] *)

Open Scope R_scope.

Definition UCI_TO_BQ : R := 3.7e4.
Definition N_AV : R := 6.022141e23.

(** A [datetime], in seconds since 1970-01-01 00:00:00.  The type holds
    the dates from [datetime.min], the start of year 1, to [datetime.max],
    the end of year 9999. *)
Definition datetime : Type := R.

Definition datetime_min : R := -62135596800.
Definition datetime_max : R := 253402300799.999999.

(** [timedelta.min] and [timedelta.max], in seconds. *)
Definition timedelta_min : R := -86399999913600.
Definition timedelta_max : R := 86399999999999.999999.

(** A date argument: a date string or a native [datetime]. *)
Inductive date_arg : Type :=
| DateStr (s : string)
| DateTime (t : datetime).

(** The keyword arguments [**kwargs]. *)
Definition kwargs : Type := gmap string float.

(** An object with [start_time] and [stop_time], such as a spectrum. *)
Record Spectrum : Type := mkSpectrum {
  spec_start_time : date_arg;
  spec_stop_time : date_arg
}.

Module IsotopeQuantity.

Record t : Type := mk {
  isotope : Isotope.t;
  halflife : float;
  decay_const : float;
  ref_date : datetime;
  creation_date : bool;
  ref_atoms : float
}.

Section Methods.

(** The nuclear data of an isotope, [isotope.halflife] and
    [isotope.decay_const]: properties the class documents and another
    module supplies; parameters here. *)
Variable Isotope_halflife : Isotope.t -> float.
Variable Isotope_decay_const : Isotope.t -> float.

(** Modelled from the spec: the datetime normalization utility
    [utils.handle_datetime] ([becquerel/core/utils.py]), which accepts a
    date string or a native date-time value and returns a date-time value,
    or fails if the string is unparseable.  [parse_date] is the parser of
    date strings. *)
Variable parse_date : string -> option datetime.

Definition handle_datetime (date : date_arg) : result datetime :=
  match date with
  | DateTime t => Ok t
  | DateStr s =>
      match parse_date s with
      | Some t => Ok t
      | None => Raise TypeError
      end
  end.

(** [datetime.datetime.now()]. *)
Variable now : datetime.

Definition _check_positive_qty (val : float) : result float :=
  if flt val 0 then Raise ValueError else Ok val.

(** [_atoms_from_kwargs], as a function of the two attributes of [self]
    it reads: [self.isotope.A] and [self.decay_const]. *)
Definition atoms_from (iso_A : Z) (decay_const : float) (kw : kwargs)
    : result float :=
  match kw !! "atoms" with
  | Some atoms => _check_positive_qty atoms
  | None =>
  match kw !! "g" with
  | Some g =>
      v ← _check_positive_qty g;
      x ← fdiv v (IZR iso_A);
      Ok (fmul x N_AV)
  | None =>
  match (if flt 0 decay_const then kw !! "bq" else None) with
  | Some bq =>
      v ← _check_positive_qty bq;
      fdiv v decay_const
  | None =>
  match (if flt 0 decay_const then kw !! "uci" else None) with
  | Some uci =>
      v ← _check_positive_qty uci;
      fdiv (fmul v UCI_TO_BQ) decay_const
  | None =>
      if bool_decide (is_Some (kw !! "bq")) || bool_decide (is_Some (kw !! "uci"))
      then Raise (IsotopeError
                    "Cannot initialize a stable IsotopeQuantity from activity")
      else Raise (IsotopeError "Missing arg for isotope activity")
  end end end end.

Definition _atoms_from_kwargs (self : t) (kw : kwargs) : result float :=
  atoms_from (Isotope.A (isotope self)) (decay_const self) kw.

(** [_init_date]. *)
Definition _init_date (date : option date_arg) : result datetime :=
  match date with
  | Some d => handle_datetime d
  | None => Ok now
  end.

Definition __init__ (isotope : Isotope.t) (date : option date_arg)
    (creation_date : bool) (kw : kwargs) : result t :=
  let halflife := Isotope_halflife isotope in
  let decay_const := Isotope_decay_const isotope in
  ref_date ← _init_date date;
  ref_atoms ← atoms_from (Isotope.A isotope) decay_const kw;
  Ok (mk isotope halflife decay_const ref_date creation_date ref_atoms).

Definition atoms_at (self : t) (date : date_arg) : result float :=
  t1 ← handle_datetime date;
  let dt : R := t1 - ref_date self in
  if Rltb dt 0 && creation_date self then
    Raise (IsotopeError "The source represented by this IsotopeQuantity did not exist")
  else
    x ← fdiv (- dt)%R (halflife self);
    Ok (fmul (ref_atoms self) (pow2 x)).

Definition bq_at (self : t) (date : date_arg) : result float :=
  a ← atoms_at self date;
  Ok (fmul a (decay_const self)).

Definition uci_at (self : t) (date : date_arg) : result float :=
  b ← bq_at self date;
  fdiv b UCI_TO_BQ.

Definition g_at (self : t) (date : date_arg) : result float :=
  a ← atoms_at self date;
  x ← fdiv a N_AV;
  Ok (fmul x (IZR (Isotope.A (isotope self)))).

Definition atoms_now (self : t) : result float := atoms_at self (DateTime now).
Definition bq_now (self : t) : result float := bq_at self (DateTime now).
Definition uci_now (self : t) : result float := uci_at self (DateTime now).
Definition g_now (self : t) : result float := g_at self (DateTime now).

Definition decays_from (self : t) (start_time stop_time : date_arg)
    : result float :=
  a ← atoms_at self start_time;
  b ← atoms_at self stop_time;
  Ok (fsub a b).

(** [(stop_time - start_time).total_seconds()] on the raw arguments:
    subtraction is defined between two [datetime]s only. *)
Definition raw_elapsed (stop_time start_time : date_arg) : result float :=
  match stop_time, start_time with
  | DateTime t1, DateTime t0 => Ok (Num (t1 - t0))
  | _, _ => Raise TypeError
  end.

Definition bq_from (self : t) (start_time stop_time : date_arg)
    : result float :=
  d ← decays_from self start_time stop_time;
  s ← raw_elapsed stop_time start_time;
  fdiv d s.

Definition uci_from (self : t) (start_time stop_time : date_arg)
    : result float :=
  b ← bq_from self start_time stop_time;
  fdiv b UCI_TO_BQ.

Definition decays_during (self : t) (spec : Spectrum) : result float :=
  decays_from self (spec_start_time spec) (spec_stop_time spec).

Definition bq_during (self : t) (spec : Spectrum) : result float :=
  bq_from self (spec_start_time spec) (spec_stop_time spec).

Definition uci_during (self : t) (spec : Spectrum) : result float :=
  uci_from self (spec_start_time spec) (spec_stop_time spec).

(** [datetime.timedelta(seconds=dt)]: the constructor rejects the
    infinities and the intervals outside the range of [timedelta] with
    [OverflowError], and nan with [ValueError]. *)
Definition timedelta_seconds (dt : float) : result R :=
  match dt with
  | Num r =>
      if Rltb r timedelta_min || Rltb timedelta_max r
      then Raise OverflowError
      else Ok r
  | PInf | NInf => Raise OverflowError
  | NaN => Raise ValueError
  end.

(** [t + td] of a [datetime] and a [timedelta]: a date outside the range
    of [datetime] raises [OverflowError]. *)
Definition datetime_add (t : datetime) (td : R) : result datetime :=
  if Rltb (t + td) datetime_min || Rltb datetime_max (t + td)
  then Raise OverflowError
  else Ok (t + td).

(** [time_when]; [None] is the result before the creation date. *)
Definition time_when (self : t) (kw : kwargs) : result (option datetime) :=
  if negb (isfinite (halflife self)) then
    Raise (IsotopeError "Cannot calculate time_when for stable isotope")
  else
    target ← _atoms_from_kwargs self kw;
    ratio ← fdiv target (ref_atoms self);
    let dt := fmul (fneg (halflife self)) (np_log2 ratio) in
    if flt dt 0 && creation_date self then Ok None
    else
      td ← timedelta_seconds dt;
      date ← datetime_add (ref_date self) td;
      Ok (Some date).

End Methods.

End IsotopeQuantity.

(** ** The class [NeutronIrradiation] *)

Module NeutronIrradiation.

Record t : Type := mk {
  start_time : datetime;
  stop_time : datetime;
  duration : R;
  n_cm2 : float;
  n_cm2_s : option float
}.

Section Methods.

Variable Isotope_halflife : Isotope.t -> float.
Variable Isotope_decay_const : Isotope.t -> float.
Variable parse_date : string -> option datetime.
Variable now : datetime.

Definition is_None {X : Type} (o : option X) : bool :=
  match o with
  | None => true
  | Some _ => false
  end.

Definition __init__ (start_time stop_time : date_arg)
    (n_cm2 n_cm2_s : option float) : result t :=
  start ← IsotopeQuantity.handle_datetime parse_date start_time;
  stop ← IsotopeQuantity.handle_datetime parse_date stop_time;
  if Rltb stop start then Raise ValueError
  else
    let duration := stop - start in
    if negb (xorb (is_None n_cm2) (is_None n_cm2_s)) then Raise ValueError
    else
      match n_cm2 with
      | None =>
          match n_cm2_s with
          | Some phi => Ok (mk start stop duration (fmul phi duration) (Some phi))
          | None => Raise TypeError
          end
      | Some n => Ok (mk start stop duration n None)
      end.

(** [q.isotope] of an optional quantity: [None] has no attributes. *)
Definition isotope_of (q : option IsotopeQuantity.t) : result Isotope.t :=
  match q with
  | Some q => Ok (IsotopeQuantity.isotope q)
  | None => Raise AttributeError
  end.

(** [iso.decay_coeff]: no class of the package defines an attribute of
    this name ([Isotope] documents [halflife], [ng_cs] and [decay_const]),
    so the lookup raises. *)
Definition Isotope_decay_coeff (iso : Isotope.t) : result float :=
  Raise AttributeError.

(** [self.n_cm2_s * x], where [self.n_cm2_s] may be [None]. *)
Definition n_cm2_s_times (self : t) (x : float) : result float :=
  match n_cm2_s self with
  | Some phi => Ok (fmul phi x)
  | None => Raise TypeError
  end.

Definition activate (self : t) (barns : float)
    (initial_iso_q : option IsotopeQuantity.t) (initial_iso : option Isotope.t)
    (activated_iso_q : option IsotopeQuantity.t) (activated_iso : option Isotope.t)
    : result IsotopeQuantity.t :=
  if negb (xorb (is_None initial_iso_q) (is_None activated_iso_q)) then
    Raise (IsotopeError "Only one IsotopeQuantity should be given")
  else if negb (is_None initial_iso_q) && is_None activated_iso then
    Raise (IsotopeError "Activated isotope must be specified")
  else if negb (is_None activated_iso_q) && is_None initial_iso then
    Raise (IsotopeError "Initial isotope must be specified")
  else
    '(initial_iso, activated_iso) ←
      match initial_iso, activated_iso with
      | None, _ => i ← isotope_of initial_iso_q; Ok (Some i, activated_iso)
      | Some _, None => a ← isotope_of activated_iso_q; Ok (initial_iso, Some a)
      | Some _, Some _ => Ok (initial_iso, activated_iso)
      end;
    initial_iso ← from_option Ok (Raise AttributeError) initial_iso;
    if isfinite (Isotope_halflife initial_iso) then Raise NotImplementedError
    else
      let cross_section := fmul barns 1.0e-24 in
      let stop := DateTime (stop_time self) in
      match activated_iso_q with
      | None =>
          activated_bq ←
            (if Reqb (duration self) 0 then
               let k := fmul (n_cm2 self) cross_section in
               q ← from_option Ok (Raise AttributeError) initial_iso_q;
               atoms ← IsotopeQuantity.atoms_at parse_date q stop;
               a ← from_option Ok (Raise AttributeError) activated_iso;
               Ok (fmul (fmul k atoms) (Isotope_decay_const a))
             else
               k ← n_cm2_s_times self cross_section;
               q ← from_option Ok (Raise AttributeError) initial_iso_q;
               atoms ← IsotopeQuantity.atoms_at parse_date q stop;
               a ← from_option Ok (Raise AttributeError) activated_iso;
               Ok (fmul (fmul k atoms)
                     (fsub 1 (np_exp (fmul (fneg (Isotope_decay_const a))
                                        (duration self))))));
          a ← from_option Ok (Raise AttributeError) activated_iso;
          IsotopeQuantity.__init__ Isotope_halflife Isotope_decay_const
            parse_date now a (Some stop) true {[ "bq" := activated_bq ]}
      | Some q =>
          initial_atoms ←
            (if Reqb (duration self) 0 then
               bq ← IsotopeQuantity.bq_at parse_date q stop;
               a ← from_option Ok (Raise AttributeError) activated_iso;
               coeff ← Isotope_decay_coeff a;
               fdiv bq (fmul (fmul (n_cm2 self) cross_section) coeff)
             else
               bq ← IsotopeQuantity.bq_at parse_date q stop;
               k ← n_cm2_s_times self cross_section;
               a ← from_option Ok (Raise AttributeError) activated_iso;
               fdiv bq
                 (fmul k
                    (fsub 1 (np_exp (fmul (fneg (Isotope_decay_const a))
                                       (duration self))))));
          IsotopeQuantity.__init__ Isotope_halflife Isotope_decay_const
            parse_date now initial_iso (Some stop) true
            {[ "atoms" := initial_atoms ]}
      end.

End Methods.

End NeutronIrradiation.

(** ** Definitions of the properties *)

(** The encoding rule of the isomer code, as the specification words it:
    empty for level 0, "m" for level 1, "m{level}" from level 2 on. *)
Definition isomer_code (M : Z) : string :=
  if (M =? 0)%Z then "" else if (M =? 1)%Z then "m" else "m" +:+ pretty M.

(** The selection of [_split_element_mass] as the specification words it:
    every split of a hyphen-free string into an alphabetic run and a run
    with a leading digit, in both orders, whose alphabetic run resolves;
    each with its element token, the resolved symbol and the mass part. *)
Definition token_candidates (lookup : pyval -> option Element) (arg : string)
    : list (string * string * string) :=
  flat_map
    (fun j =>
       let p1 := PyStr.slice_from j arg in
       let p2 := PyStr.slice_to j arg in
       let try_split (tok mass : string) :=
         if PyStr.isalpha tok &&
            match mass with String c _ => PyStr.is_digit c | _ => false end
         then match lookup (PStr tok) with
              | Some e => [(tok, symbol e, mass)]
              | None => []
              end
         else [] in
       (try_split p2 p1 ++ try_split p1 p2)%list)
    (seq 1 (String.length arg - 1)).

(** The candidate whose element token is longest (the first of them). *)
Fixpoint longest_token (cands : list (string * string * string))
    (best : option (string * string * string))
    : option (string * string * string) :=
  match cands with
  | [] => best
  | (tok, sym, mass) :: rest =>
      match best with
      | Some (tok0, _, _) =>
          if (String.length tok0 <? String.length tok)%nat
          then longest_token rest (Some (tok, sym, mass))
          else longest_token rest best
      | None => longest_token rest (Some (tok, sym, mass))
      end
  end.

(** Modelled from the spec: the nuclear data of an isotope come from the
    Element collaborator, outside this module; the spec relates them by
    "decay constant = ln2 / halflife (0 for stable/infinite halflife)". *)
Definition nuclear_data_consistent (halflife decay_const : float) : Prop :=
  fdiv (Num (ln 2)) halflife = Ok decay_const.

(** The solution [dt = -halflife * log2(target / ref_atoms)] of
    [time_when], for finite positive arguments. *)
Definition solved_dt (T target n : R) : R := - T * (ln (target / n) / ln 2).

(** The message of the [IsotopeError] for an activity of a stable isotope. *)
Definition stable_msg : string :=
  "Cannot initialize a stable IsotopeQuantity from activity".

(** [s] is not empty and its first character satisfies [f]. *)
Definition starts_with (f : ascii -> bool) (s : string) : bool :=
  match s with
  | String c _ => f c
  | EmptyString => false
  end.

(** What one pass of the loop of [_split_element_mass] appends for the
    pair [(p1, p2)]: the resolved symbol and the mass part, or nothing. *)
Definition split_hit (lookup : pyval -> option Element) (p : string * string)
    : list (string * string) :=
  let (p1, p2) := p in
  if starts_with PyStr.is_digit p1 && starts_with PyStr.is_alpha p2 then
    match lookup (PStr p2) with
    | Some elem => [(symbol elem, p1)]
    | None => []
    end
  else if starts_with PyStr.is_alpha p1 && starts_with PyStr.is_digit p2 then
    match lookup (PStr p1) with
    | Some elem => [(symbol elem, p2)]
    | None => []
    end
  else [].

(** [arg] is a token [tok] that starts with a letter and resolves to an
    element of symbol [e], before or after a part [m] that starts with a
    digit. *)
Definition resolved_split (lookup : pyval -> option Element)
    (arg tok e m : string) : Prop :=
  (arg = tok +:+ m \/ arg = m +:+ tok) /\
  starts_with PyStr.is_alpha tok = true /\
  starts_with PyStr.is_digit m = true /\
  exists elem, lookup (PStr tok) = Some elem /\ e = symbol elem.

(** ** Concrete instances *)

Definition Na_23 : Isotope.t :=
  Isotope.mk (mkElement "Na" "Sodium" 11) 23 12 0 "".

Definition Na_24 : Isotope.t :=
  Isotope.mk (mkElement "Na" "Sodium" 11) 24 13 0 "".

(** Sample nuclear data: sodium-23 is stable, sodium-24 has a halflife of
    54000 s. *)
Definition sample_halflife (iso : Isotope.t) : float :=
  if (Isotope.A iso =? 23)%Z then PInf else Num 54000.

Definition sample_decay_const (iso : Isotope.t) : float :=
  if (Isotope.A iso =? 23)%Z then Num 0 else Num (ln 2 / 54000).

Definition no_date_strings (s : string) : option datetime := None.

(** A date parser that knows the epoch only, as time 0. *)
Definition epoch_only (s : string) : option datetime :=
  if String.eqb s "1970-01-01" then Some 0 else None.


(** Eight atoms of sodium-24 created at time 0. *)
Definition eight_Na_24 : IsotopeQuantity.t :=
  IsotopeQuantity.mk Na_24 (Num 54000) (Num (ln 2 / 54000)) 0 true (Num 8).

(** A zero-duration irradiation at time 0 with a fluence of 1e15 /cm2. *)
Definition pulse : NeutronIrradiation.t :=
  NeutronIrradiation.mk 0 0 0 (Num 1e15) None.

(** Hafnium-178 in its second isomeric state. *)
Definition Hf_178m2 : Isotope.t :=
  Isotope.mk (mkElement "Hf" "Hafnium" 72) 178 106 2 "m2".

(** Ten atoms of sodium-23 at time 0. *)
Definition ten_Na_23 : IsotopeQuantity.t :=
  IsotopeQuantity.mk Na_23 PInf (Num 0) 0 true (Num 10).

(** An irradiation from time -10 to time 0 at 1e15 /cm2/s. *)
Definition exposure : NeutronIrradiation.t :=
  NeutronIrradiation.mk (-10) 0 10 (Num 1e16) (Some (Num 1e15)).

(** * Properties *)

(** ** The embedding on examples *)

Example int_of_str_238 : PyStr.int_of_str "238" = Some 238%Z.
Proof. reflexivity. Qed.

Example int_of_str_junk : PyStr.int_of_str "19Fluori" = None.
Proof. reflexivity. Qed.

Example split_hyphen : PyStr.split "-" "Tc-99m" = ["Tc"; "99m"].
Proof. reflexivity. Qed.

Example split_m : PyStr.split "m" "178m2" = ["178"; "2"].
Proof. reflexivity. Qed.

Example split_none : PyStr.split "-" "" = [""].
Proof. reflexivity. Qed.

Example lookup_HF :
  PeriodicTable.lookup (PStr "HF") = Some (mkElement "Hf" "Hafnium" 72).
Proof. reflexivity. Qed.

Example lookup_technetium :
  PeriodicTable.lookup (PStr "technetium") = Some (mkElement "Tc" "Technetium" 43).
Proof. reflexivity. Qed.

Example lookup_M2HF : PeriodicTable.lookup (PStr "M2HF") = None.
Proof. reflexivity. Qed.

Example parse_238U :
  parse_isotope PeriodicTable.lookup "238U" = Ok ("U", 238%Z, "").
Proof. vm_compute. reflexivity. Qed.

Example parse_Tc_99m :
  parse_isotope PeriodicTable.lookup "Tc-99m" = Ok ("Tc", 99%Z, "m").
Proof. vm_compute. reflexivity. Qed.

Example parse_178M2HF :
  parse_isotope PeriodicTable.lookup "178M2HF" = Ok ("Hf", 178%Z, "m2").
Proof. vm_compute. reflexivity. Qed.

Example Isotope_Tc_99m :
  Isotope.__init__ PeriodicTable.lookup [PStr "Tc-99m"] =
  Ok (Isotope.mk (mkElement "Tc" "Technetium" 43) 99 56 1 "m").
Proof. vm_compute. reflexivity. Qed.

Example Isotope_Hf_178_2 :
  Isotope.__init__ PeriodicTable.lookup [PInt 72; PInt 178; PInt 2] =
  Ok (Isotope.mk (mkElement "Hf" "Hafnium" 72) 178 106 2 "m2").
Proof. vm_compute. reflexivity. Qed.

Example init_m_zero : Isotope._init_m (PInt 0) = Ok ("", 0%Z).
Proof. reflexivity. Qed.

Example init_m_three : Isotope._init_m (PInt 3) = Ok ("m3", 3%Z).
Proof. vm_compute. reflexivity. Qed.

Example init_m_upper : Isotope._init_m (PStr "M2") = Ok ("m2", 2%Z).
Proof. vm_compute. reflexivity. Qed.

(** ** Arithmetic of the float model *)

Lemma Rltb_true (a b : R) : a < b -> Rltb a b = true.
Proof. intros H. unfold Rltb. destruct (Rlt_dec a b); [reflexivity | contradiction]. Qed.

Lemma Rltb_false (a b : R) : b <= a -> Rltb a b = false.
Proof. intros H. unfold Rltb. destruct (Rlt_dec a b); [lra | reflexivity]. Qed.

Lemma Reqb_true (a b : R) : a = b -> Reqb a b = true.
Proof. intros H. unfold Reqb. destruct (Req_dec_T a b); [reflexivity | contradiction]. Qed.

Lemma Reqb_false (a b : R) : a <> b -> Reqb a b = false.
Proof. intros H. unfold Reqb. destruct (Req_dec_T a b); [contradiction | reflexivity]. Qed.

Lemma fdiv_Num (a b : R) : b <> 0 -> fdiv (Num a) (Num b) = Ok (Num (a / b)).
Proof. intros H. unfold fdiv. rewrite (Reqb_false _ _ H). reflexivity. Qed.

Lemma fdiv_zero (x : float) : fdiv x (Num 0) = Raise ZeroDivisionError.
Proof. unfold fdiv. rewrite (Reqb_true 0 0 eq_refl). destruct x; reflexivity. Qed.

Lemma fdiv_PInf (a : R) : fdiv (Num a) PInf = Ok (Num 0).
Proof. reflexivity. Qed.

Lemma fmul_one (x : float) : fmul x (Num 1) = x.
Proof.
  destruct x; simpl; [f_equal; lra | | | reflexivity]; unfold inf_times;
    rewrite (Reqb_false 1 0) by lra; rewrite (Rltb_true 0 1) by lra; reflexivity.
Qed.

Lemma Rpower_2_0 : Rpower 2 0 = 1.
Proof. apply Rpower_O. lra. Qed.

Lemma Rpower_2_opp1 : Rpower 2 (- (1)) = / 2.
Proof. rewrite Rpower_Ropp, Rpower_1 by lra. reflexivity. Qed.

Lemma ln_2_pos : 0 < ln 2.
Proof. rewrite <- ln_1. apply ln_increasing; lra. Qed.


Lemma UCI_TO_BQ_nonzero : UCI_TO_BQ <> 0.
Proof. unfold UCI_TO_BQ. lra. Qed.

Lemma N_AV_nonzero : N_AV <> 0.
Proof. unfold N_AV. lra. Qed.

(** ** Evaluation and inversion of the decay law *)

Section DecayLaw.

Import IsotopeQuantity.

Variable parse_date : string -> option datetime.

(** Past the creation-date guard, [atoms_at] is the decay formula. *)
Lemma atoms_at_unfold (q : IsotopeQuantity.t) (date : date_arg) (t1 : datetime) :
  handle_datetime parse_date date = Ok t1 ->
  Rltb (t1 - ref_date q) 0 && creation_date q = false ->
  atoms_at parse_date q date =
  (x ← fdiv (Num (- (t1 - ref_date q))) (halflife q);
   Ok (fmul (ref_atoms q) (pow2 x))).
Proof.
  intros Hd Hg. unfold atoms_at. rewrite Hd. simpl.
  rewrite Hg. reflexivity.
Qed.

Lemma guard_not_before (q : IsotopeQuantity.t) (t1 : datetime) :
  ref_date q <= t1 -> Rltb (t1 - ref_date q) 0 && creation_date q = false.
Proof. intros H. rewrite Rltb_false by lra. reflexivity. Qed.

(** C1. For a finite, nonzero halflife [T] and a date [t1] not before the
    reference date, [atoms_at] is [ref_atoms * 2 ** (-dt / T)] with
    [dt = t1 - ref_date]; at the reference date it is [ref_atoms], and one
    halflife later [ref_atoms / 2].  For an infinite halflife it is
    [ref_atoms] at every such date. *)
Theorem atoms_at_decay_law (q : IsotopeQuantity.t) (date : date_arg) (t1 : datetime) :
  handle_datetime parse_date date = Ok t1 ->
  ref_date q <= t1 ->
  (forall T : R, halflife q = Num T -> T <> 0 ->
     atoms_at parse_date q date =
       Ok (fmul (ref_atoms q) (Num (Rpower 2 (- (t1 - ref_date q) / T)))) /\
     (t1 = ref_date q -> atoms_at parse_date q date = Ok (ref_atoms q)) /\
     (t1 = ref_date q + T ->
      forall n : R, ref_atoms q = Num n -> atoms_at parse_date q date = Ok (Num (n / 2)))) /\
  (halflife q = PInf -> atoms_at parse_date q date = Ok (ref_atoms q)).
Proof.
  intros Hd Hle.
  pose proof (atoms_at_unfold q date t1 Hd (guard_not_before q t1 Hle)) as E.
  split.
  - intros T HT HT0. rewrite HT in E. rewrite fdiv_Num in E by exact HT0.
    simpl in E. split; [exact E | split].
    + intros ->. rewrite E.
      replace (- (ref_date q - ref_date q) / T) with 0 by (field; exact HT0).
      rewrite Rpower_2_0. now rewrite fmul_one.
    + intros -> n Hn. rewrite E, Hn. simpl.
      replace (- (ref_date q + T - ref_date q) / T) with (- (1))
        by (field; exact HT0).
      rewrite Rpower_2_opp1. reflexivity.
  - intros Hinf. rewrite Hinf in E. rewrite fdiv_PInf in E. simpl in E.
    rewrite Rpower_2_0 in E. now rewrite fmul_one in E.
Qed.

(** The end of [time_when]: the interval as a [timedelta], added to the
    reference date. *)
Lemma date_in_range (ref dt : R) :
  timedelta_min <= dt <= timedelta_max ->
  datetime_min <= ref + dt <= datetime_max ->
  (td ← timedelta_seconds (Num dt); date ← datetime_add ref td; Ok (Some date))
  = Ok (Some (ref + dt)).
Proof.
  intros Htd Hdate. unfold timedelta_seconds.
  rewrite !Rltb_false by lra. cbn [orb mbind result_bind].
  unfold datetime_add. rewrite !Rltb_false by lra. reflexivity.
Qed.


Lemma time_when_unfold (q : IsotopeQuantity.t) (kw : kwargs) (T target n : R) :
  halflife q = Num T ->
  ref_atoms q = Num n ->
  _atoms_from_kwargs q kw = Ok (Num target) ->
  0 < target -> 0 < n ->
  time_when q kw =
  if Rltb (solved_dt T target n) 0 && creation_date q then Ok None
  else
    td ← timedelta_seconds (Num (solved_dt T target n));
    date ← datetime_add (ref_date q) td;
    Ok (Some date).
Proof.
  intros HT Hn Hkw Ht Hn0. unfold time_when. rewrite HT, Hkw, Hn.
  cbn [isfinite negb mbind result_bind].
  rewrite fdiv_Num by lra. cbn [mbind result_bind fneg np_log2].
  assert (0 < target / n) as Hr by (apply Rdiv_lt_0_compat; assumption).
  rewrite Reqb_false by lra. rewrite Rltb_false by lra. cbn [fmul flt].
  fold (solved_dt T target n). reflexivity.
Qed.






(** C7. With [creation_date] set, evaluating at a date before the
    reference date raises [IsotopeError] in [atoms_at], [bq_at], [uci_at]
    and [g_at]; [time_when], when its solved [dt] is negative, returns
    [None] instead of raising. *)
Theorem before_creation_date (q : IsotopeQuantity.t) :
  creation_date q = true ->
  (forall (date : date_arg) (t1 : datetime),
     handle_datetime parse_date date = Ok t1 ->
     t1 < ref_date q ->
     exists msg : string,
       atoms_at parse_date q date = Raise (IsotopeError msg) /\
       bq_at parse_date q date = Raise (IsotopeError msg) /\
       uci_at parse_date q date = Raise (IsotopeError msg) /\
       g_at parse_date q date = Raise (IsotopeError msg)) /\
  (forall (kw : kwargs) (target ratio : float),
     isfinite (halflife q) = true ->
     _atoms_from_kwargs q kw = Ok target ->
     fdiv target (ref_atoms q) = Ok ratio ->
     flt (fmul (fneg (halflife q)) (np_log2 ratio)) 0 = true ->
     time_when q kw = Ok None).
Proof.
  intros Hc. split.
  - intros date t1 Hd Hlt. eexists.
    assert (atoms_at parse_date q date = Raise (IsotopeError
      "The source represented by this IsotopeQuantity did not exist")) as E.
    { unfold atoms_at. rewrite Hd. simpl. rewrite Rltb_true by lra.
      rewrite Hc. reflexivity. }
    unfold uci_at, bq_at, g_at. rewrite E. repeat split; reflexivity.
  - intros kw target ratio Hfin Hkw Hr Hneg.
    unfold time_when. rewrite Hfin, Hkw. simpl. rewrite Hr. simpl.
    rewrite Hneg, Hc. reflexivity.
Qed.

(** The derived conversions: Bq = atoms * lambda, uCi = Bq / 3.7e4 and
    grams = atoms / N_AV * A. *)
Lemma derived_evaluations (q : IsotopeQuantity.t) (date : date_arg) (a lam : R) :
  atoms_at parse_date q date = Ok (Num a) ->
  decay_const q = Num lam ->
  bq_at parse_date q date = Ok (Num (a * lam)) /\
  uci_at parse_date q date = Ok (Num (a * lam / UCI_TO_BQ)) /\
  g_at parse_date q date = Ok (Num (a / N_AV * IZR (Isotope.A (isotope q)))).
Proof.
  intros Ha Hlam.
  assert (bq_at parse_date q date = Ok (Num (a * lam))) as Hbq.
  { unfold bq_at. rewrite Ha, Hlam. reflexivity. }
  repeat split.
  - exact Hbq.
  - unfold uci_at. rewrite Hbq. cbn [mbind result_bind].
    apply fdiv_Num, UCI_TO_BQ_nonzero.
  - unfold g_at. rewrite Ha. cbn [mbind result_bind].
    rewrite fdiv_Num by apply N_AV_nonzero. reflexivity.
Qed.

End DecayLaw.

(** ** Quantity keywords and the stable-isotope guard *)

Lemma stable_not_finite (halflife : float) :
  nuclear_data_consistent halflife (Num 0) -> isfinite halflife = false.
Proof.
  unfold nuclear_data_consistent. destruct halflife as [T | | |]; try reflexivity.
  intros H. exfalso. destruct (Req_dec_T T 0) as [-> | HT].
  - rewrite fdiv_zero in H. discriminate.
  - rewrite fdiv_Num in H by exact HT. injection H as H.
    pose proof ln_2_pos as H2.
    assert (ln 2 = ln 2 / T * T) as E by (field; exact HT).
    rewrite H in E. lra.
Qed.

Section QuantityKeywords.

Import IsotopeQuantity.

Variable Isotope_halflife : Isotope.t -> float.
Variable Isotope_decay_const : Isotope.t -> float.
Variable parse_date : string -> option datetime.
Variable now : datetime.

Lemma check_negative (v : float) :
  flt v 0 = true -> _check_positive_qty v = Raise ValueError.
Proof. intros H. unfold _check_positive_qty. now rewrite H. Qed.

Lemma atoms_from_stable (iso_A : Z) (kw : kwargs) :
  kw !! "atoms" = None -> kw !! "g" = None ->
  is_Some (kw !! "bq") \/ is_Some (kw !! "uci") ->
  atoms_from iso_A (Num 0) kw = Raise (IsotopeError stable_msg).
Proof.
  intros Ha Hg Hact. unfold atoms_from. rewrite Ha, Hg.
  assert (flt 0 0 = false) as -> by (simpl; apply Rltb_false; lra).
  destruct Hact as [H | H].
  - rewrite bool_decide_eq_true_2 by exact H. reflexivity.
  - rewrite (bool_decide_eq_true_2 (is_Some (kw !! "uci"))) by exact H.
    rewrite orb_true_r. reflexivity.
Qed.

Lemma atoms_from_stable_inv (iso_A : Z) (kw : kwargs) (v : float) :
  atoms_from iso_A (Num 0) kw = Ok v ->
  is_Some (kw !! "atoms") \/ is_Some (kw !! "g").
Proof.
  intros H.
  destruct (kw !! "atoms") eqn:Ha; [left; eauto |].
  destruct (kw !! "g") eqn:Hg; [right; eauto |].
  exfalso. unfold atoms_from in H. rewrite Ha, Hg in H.
  assert (flt 0 0 = false) as E by (simpl; apply Rltb_false; lra).
  rewrite E in H.
  destruct (bool_decide _ || bool_decide _); discriminate.
Qed.

Lemma init_inv (iso : Isotope.t) (date : option date_arg) (cd : bool)
    (kw : kwargs) (q : IsotopeQuantity.t) :
  __init__ Isotope_halflife Isotope_decay_const parse_date now iso date cd kw = Ok q ->
  exists d v,
    _init_date parse_date now date = Ok d /\
    atoms_from (Isotope.A iso) (Isotope_decay_const iso) kw = Ok v /\
    q = mk iso (Isotope_halflife iso) (Isotope_decay_const iso) d cd v.
Proof.
  unfold __init__. intros H.
  destruct (_init_date parse_date now date) as [d |]; [| discriminate].
  simpl in H.
  destruct (atoms_from (Isotope.A iso) (Isotope_decay_const iso) kw) as [v |];
    [| discriminate].
  simpl in H. injection H as <-. eauto.
Qed.

(** C5. For an isotope whose decay constant is 0, constructing an
    [IsotopeQuantity] from [bq=] or [uci=] (no [atoms=] or [g=]) raises
    the [IsotopeError] for stable isotopes; a quantity of that isotope can
    only be constructed with [atoms=] or [g=], and [time_when] on it raises
    the [IsotopeError] for stable isotopes. *)
Theorem stable_isotope_guard (iso : Isotope.t) :
  nuclear_data_consistent (Isotope_halflife iso) (Isotope_decay_const iso) ->
  Isotope_decay_const iso = Num 0 ->
  (forall (date : option date_arg) (d : datetime) (cd : bool) (kw : kwargs),
     _init_date parse_date now date = Ok d ->
     kw !! "atoms" = None -> kw !! "g" = None ->
     is_Some (kw !! "bq") \/ is_Some (kw !! "uci") ->
     __init__ Isotope_halflife Isotope_decay_const parse_date now iso date cd kw
     = Raise (IsotopeError stable_msg)) /\
  (forall (date : option date_arg) (cd : bool) (kw : kwargs) (q : IsotopeQuantity.t),
     __init__ Isotope_halflife Isotope_decay_const parse_date now iso date cd kw
     = Ok q ->
     (is_Some (kw !! "atoms") \/ is_Some (kw !! "g")) /\
     forall kw' : kwargs,
       time_when q kw' =
       Raise (IsotopeError "Cannot calculate time_when for stable isotope")).
Proof.
  intros Hcons Hdc. split.
  - intros date d cd kw Hd Ha Hg Hact. unfold __init__. rewrite Hd. simpl.
    rewrite Hdc. rewrite atoms_from_stable by assumption. reflexivity.
  - intros date cd kw q Hq.
    destruct (init_inv _ _ _ _ _ Hq) as (d & v & _ & Hv & ->).
    rewrite Hdc in Hv. split.
    + eapply atoms_from_stable_inv. exact Hv.
    + intros kw'. unfold time_when. simpl.
      rewrite Hdc in Hcons. rewrite (stable_not_finite _ Hcons). reflexivity.
Qed.

Lemma atoms_from_first_atoms (iso_A : Z) (dc : float) (kw : kwargs) (v : float) :
  kw !! "atoms" = Some v ->
  atoms_from iso_A dc kw = atoms_from iso_A dc {[ "atoms" := v ]}.
Proof. intros H. unfold atoms_from. rewrite H. reflexivity. Qed.

Lemma atoms_from_first_g (iso_A : Z) (dc : float) (kw : kwargs) (v : float) :
  kw !! "atoms" = None -> kw !! "g" = Some v ->
  atoms_from iso_A dc kw = atoms_from iso_A dc {[ "g" := v ]}.
Proof. intros Ha H. unfold atoms_from. rewrite Ha, H. reflexivity. Qed.

Lemma atoms_from_first_bq (iso_A : Z) (dc : float) (kw : kwargs) (v : float) :
  kw !! "atoms" = None -> kw !! "g" = None -> kw !! "bq" = Some v ->
  atoms_from iso_A dc kw = atoms_from iso_A dc {[ "bq" := v ]}.
Proof.
  intros Ha Hg H. unfold atoms_from. rewrite Ha, Hg, H.
  destruct (flt 0 dc); reflexivity.
Qed.

Lemma atoms_from_first_uci (iso_A : Z) (dc : float) (kw : kwargs) (v : float) :
  kw !! "atoms" = None -> kw !! "g" = None -> kw !! "bq" = None ->
  kw !! "uci" = Some v ->
  atoms_from iso_A dc kw = atoms_from iso_A dc {[ "uci" := v ]}.
Proof.
  intros Ha Hg Hb H. unfold atoms_from. rewrite Ha, Hg, Hb, H.
  destruct (flt 0 dc); reflexivity.
Qed.

Lemma atoms_from_missing (iso_A : Z) (dc : float) (kw : kwargs) :
  kw !! "atoms" = None -> kw !! "g" = None -> kw !! "bq" = None ->
  kw !! "uci" = None ->
  atoms_from iso_A dc kw = Raise (IsotopeError "Missing arg for isotope activity").
Proof.
  intros Ha Hg Hb Hu. unfold atoms_from. rewrite Ha, Hg, Hb, Hu.
  destruct (flt 0 dc); reflexivity.
Qed.

Lemma atoms_from_negative (iso_A : Z) (dc v : float) :
  flt v 0 = true ->
  atoms_from iso_A dc {[ "atoms" := v ]} = Raise ValueError /\
  atoms_from iso_A dc {[ "g" := v ]} = Raise ValueError /\
  (flt 0 dc = true ->
   atoms_from iso_A dc {[ "bq" := v ]} = Raise ValueError /\
   atoms_from iso_A dc {[ "uci" := v ]} = Raise ValueError).
Proof.
  intros Hv. pose proof (check_negative v Hv) as E.
  unfold atoms_from. repeat split.
  - change ({[ "atoms" := v ]} !! "atoms") with (Some v). exact E.
  - change (({[ "g" := v ]} : kwargs) !! "atoms") with (@None float).
    change ({[ "g" := v ]} !! "g") with (Some v). cbv beta iota. now rewrite E.
  - change (({[ "bq" := v ]} : kwargs) !! "atoms") with (@None float).
    change (({[ "bq" := v ]} : kwargs) !! "g") with (@None float).
    rewrite H.
    change ({[ "bq" := v ]} !! "bq") with (Some v). cbv beta iota. now rewrite E.
  - change (({[ "uci" := v ]} : kwargs) !! "atoms") with (@None float).
    change (({[ "uci" := v ]} : kwargs) !! "g") with (@None float).
    rewrite H.
    change (({[ "uci" := v ]} : kwargs) !! "bq") with (@None float).
    change ({[ "uci" := v ]} !! "uci") with (Some v). cbv beta iota. now rewrite E.
Qed.

(** The constructor and [time_when] see the keywords through
    [_atoms_from_kwargs] only. *)
Lemma callers_same_keywords (iso : Isotope.t) (q : IsotopeQuantity.t)
    (kw kw' : kwargs) :
  (forall iso_A dc, atoms_from iso_A dc kw = atoms_from iso_A dc kw') ->
  (forall (date : option date_arg) (cd : bool),
     __init__ Isotope_halflife Isotope_decay_const parse_date now iso date cd kw
     = __init__ Isotope_halflife Isotope_decay_const parse_date now iso date cd
         kw') /\
  time_when q kw = time_when q kw'.
Proof.
  intros H. split.
  - intros date cd. unfold __init__. now rewrite H.
  - unfold time_when, _atoms_from_kwargs. now rewrite H.
Qed.

(** An exception of [_atoms_from_kwargs] is the exception of the two
    callers: construction with a valid date, and [time_when] for a finite
    halflife. *)
Lemma init_raises_of_atoms_from (iso : Isotope.t) (kw : kwargs) (e : exn)
    (date : option date_arg) (d : datetime) (cd : bool) :
  atoms_from (Isotope.A iso) (Isotope_decay_const iso) kw = Raise e ->
  _init_date parse_date now date = Ok d ->
  __init__ Isotope_halflife Isotope_decay_const parse_date now iso date cd kw
  = Raise e.
Proof. intros H Hd. unfold __init__. rewrite Hd. cbn. now rewrite H. Qed.

Lemma time_when_raises_of_atoms_from (q : IsotopeQuantity.t) (kw : kwargs)
    (e : exn) :
  _atoms_from_kwargs q kw = Raise e ->
  isfinite (halflife q) = true -> time_when q kw = Raise e.
Proof. intros H Hf. unfold time_when. rewrite Hf. cbn. now rewrite H. Qed.

(** A negative value of the first keyword present. *)
Lemma atoms_from_negative_first (iso_A : Z) (dc : float) (kw : kwargs)
    (v : float) :
  flt v 0 = true ->
  (kw !! "atoms" = Some v \/ (kw !! "atoms" = None /\ kw !! "g" = Some v) ->
   atoms_from iso_A dc kw = Raise ValueError) /\
  (kw !! "atoms" = None -> kw !! "g" = None ->
   kw !! "bq" = Some v \/ (kw !! "bq" = None /\ kw !! "uci" = Some v) ->
   flt 0 dc = true ->
   atoms_from iso_A dc kw = Raise ValueError).
Proof.
  intros Hv. destruct (atoms_from_negative iso_A dc v Hv) as (Ha & Hg & Hact).
  split.
  - intros [H | [H0 H]].
    + now rewrite (atoms_from_first_atoms _ _ _ _ H).
    + now rewrite (atoms_from_first_g _ _ _ _ H0 H).
  - intros H0 H1 [H | [H2 H]] Hdc; destruct (Hact Hdc) as [Hb Hu].
    + now rewrite (atoms_from_first_bq _ _ _ _ H0 H1 H).
    + now rewrite (atoms_from_first_uci _ _ _ _ H0 H1 H2 H).
Qed.

(** C6, as the code has it.  The constructor and [time_when] both read the
    keywords in the order atoms, g, bq, uci and use the first one present.
    With none of the four, the constructor (given a valid date) and
    [time_when] (for a finite halflife) raise the "missing" [IsotopeError].
    With several, neither fails on that account: each behaves as with the
    first present keyword alone, and with a non-negative [atoms=] the
    constructor returns the quantity of that many atoms whatever else is
    given.  A negative value of the keyword used raises [ValueError] (for bq
    and uci, when the decay constant is positive). *)
Theorem quantity_keywords (iso : Isotope.t) (q : IsotopeQuantity.t) (kw : kwargs) :
  let init :=
    __init__ Isotope_halflife Isotope_decay_const parse_date now iso in
  let init_raises (e : exn) :=
    forall (date : option date_arg) (d : datetime) (cd : bool),
      _init_date parse_date now date = Ok d -> init date cd kw = Raise e in
  let time_when_raises (e : exn) :=
    isfinite (halflife q) = true -> time_when q kw = Raise e in
  let same_as (kw' : kwargs) :=
    (forall (date : option date_arg) (cd : bool),
       init date cd kw = init date cd kw') /\
    time_when q kw = time_when q kw' in
  (kw !! "atoms" = None -> kw !! "g" = None -> kw !! "bq" = None ->
   kw !! "uci" = None ->
   init_raises (IsotopeError "Missing arg for isotope activity") /\
   time_when_raises (IsotopeError "Missing arg for isotope activity")) /\
  (forall v : float,
     (kw !! "atoms" = Some v -> same_as {[ "atoms" := v ]}) /\
     (kw !! "atoms" = None -> kw !! "g" = Some v -> same_as {[ "g" := v ]}) /\
     (kw !! "atoms" = None -> kw !! "g" = None -> kw !! "bq" = Some v ->
      same_as {[ "bq" := v ]}) /\
     (kw !! "atoms" = None -> kw !! "g" = None -> kw !! "bq" = None ->
      kw !! "uci" = Some v -> same_as {[ "uci" := v ]})) /\
  (forall (v : R) (date : option date_arg) (d : datetime) (cd : bool),
     kw !! "atoms" = Some (Num v) -> 0 <= v ->
     _init_date parse_date now date = Ok d ->
     init date cd kw
     = Ok (mk iso (Isotope_halflife iso) (Isotope_decay_const iso) d cd
             (Num v))) /\
  (forall v : float, flt v 0 = true ->
     (kw !! "atoms" = Some v \/ (kw !! "atoms" = None /\ kw !! "g" = Some v) ->
      init_raises ValueError /\ time_when_raises ValueError) /\
     (kw !! "atoms" = None -> kw !! "g" = None ->
      kw !! "bq" = Some v \/ (kw !! "bq" = None /\ kw !! "uci" = Some v) ->
      (flt 0 (Isotope_decay_const iso) = true -> init_raises ValueError) /\
      (flt 0 (decay_const q) = true -> time_when_raises ValueError))).
Proof.
  intros init init_raises time_when_raises same_as.
  subst init init_raises time_when_raises same_as. cbv beta.
  split; [| split; [| split]].
  - intros Ha Hg Hb Hu. split.
    + intros date d cd. apply init_raises_of_atoms_from.
      now apply atoms_from_missing.
    + apply time_when_raises_of_atoms_from.
      now apply atoms_from_missing.
  - intros v. repeat apply conj; intros; apply callers_same_keywords; intros.
    + now apply atoms_from_first_atoms.
    + now apply atoms_from_first_g.
    + now apply atoms_from_first_bq.
    + now apply atoms_from_first_uci.
  - intros v date d cd Ha Hv Hd. unfold __init__. rewrite Hd.
    cbn [mbind result_bind]. unfold atoms_from. rewrite Ha.
    unfold _check_positive_qty. cbn [flt].
    rewrite Rltb_false by exact Hv. reflexivity.
  - intros v Hv. split.
    + intros H. split.
      * intros date d cd. apply init_raises_of_atoms_from.
        exact (proj1 (atoms_from_negative_first _ _ kw v Hv) H).
      * apply time_when_raises_of_atoms_from.
        exact (proj1 (atoms_from_negative_first _ _ kw v Hv) H).
    + intros Ha Hg H. split.
      * intros Hdc date d cd. apply init_raises_of_atoms_from.
        exact (proj2 (atoms_from_negative_first _ _ kw v Hv) Ha Hg H Hdc).
      * intros Hdc. apply time_when_raises_of_atoms_from.
        exact (proj2 (atoms_from_negative_first _ _ kw v Hv) Ha Hg H Hdc).
Qed.

Lemma atoms_at_accepts_strings (q : IsotopeQuantity.t) (s : string) (t : datetime) :
  parse_date s = Some t ->
  atoms_at parse_date q (DateStr s) = atoms_at parse_date q (DateTime t).
Proof. intros H. unfold atoms_at. simpl. rewrite H. reflexivity. Qed.

(** C10. [atoms_at] and [decays_from] normalize their arguments, so a
    date string that parses is as good as the datetime it denotes;
    [bq_from] and [uci_from] subtract the raw arguments, so with a string
    argument they never return a value, and raise [TypeError] when the
    decay count itself evaluates; with equal datetimes at which the decay
    count evaluates they raise [ZeroDivisionError]. *)
Theorem bq_from_raw_arguments (q : IsotopeQuantity.t) :
  (forall (s0 s1 : string) (t0 t1 : datetime),
     parse_date s0 = Some t0 -> parse_date s1 = Some t1 ->
     atoms_at parse_date q (DateStr s0) = atoms_at parse_date q (DateTime t0) /\
     decays_from parse_date q (DateStr s0) (DateStr s1) =
     decays_from parse_date q (DateTime t0) (DateTime t1)) /\
  (forall start_time stop_time : date_arg,
     (exists s, start_time = DateStr s) \/ (exists s, stop_time = DateStr s) ->
     raises (bq_from parse_date q start_time stop_time) /\
     raises (uci_from parse_date q start_time stop_time) /\
     forall d : float,
       decays_from parse_date q start_time stop_time = Ok d ->
       bq_from parse_date q start_time stop_time = Raise TypeError /\
       uci_from parse_date q start_time stop_time = Raise TypeError) /\
  (forall (t : datetime) (d : float),
     decays_from parse_date q (DateTime t) (DateTime t) = Ok d ->
     bq_from parse_date q (DateTime t) (DateTime t) = Raise ZeroDivisionError /\
     uci_from parse_date q (DateTime t) (DateTime t) = Raise ZeroDivisionError).
Proof.
  split; [| split].
  - intros s0 s1 t0 t1 H0 H1. split.
    + now apply atoms_at_accepts_strings.
    + unfold decays_from.
      rewrite (atoms_at_accepts_strings q s0 t0 H0).
      rewrite (atoms_at_accepts_strings q s1 t1 H1). reflexivity.
  - intros start_time stop_time Hstr.
    assert (raw_elapsed stop_time start_time = Raise TypeError) as Hraw.
    { destruct Hstr as [[s ->] | [s ->]]; [destruct stop_time |]; reflexivity. }
    assert (forall d, decays_from parse_date q start_time stop_time = Ok d ->
                      bq_from parse_date q start_time stop_time = Raise TypeError)
      as Hbq.
    { intros d Hd. unfold bq_from. rewrite Hd, Hraw. reflexivity. }
    repeat split.
    + unfold bq_from.
      destruct (decays_from parse_date q start_time stop_time) as [d | e];
        [rewrite Hraw |]; eexists; reflexivity.
    + unfold uci_from, bq_from.
      destruct (decays_from parse_date q start_time stop_time) as [d | e];
        [rewrite Hraw |]; eexists; reflexivity.
    + eapply Hbq; eassumption.
    + unfold uci_from. erewrite Hbq by eassumption. reflexivity.
  - intros t d Hd.
    assert (bq_from parse_date q (DateTime t) (DateTime t) = Raise ZeroDivisionError)
      as Hbq.
    { unfold bq_from. rewrite Hd. cbn.
      replace (t - t) with 0 by ring. apply fdiv_zero. }
    split; [exact Hbq |]. unfold uci_from. rewrite Hbq. reflexivity.
Qed.

End QuantityKeywords.

(** ** Neutron irradiation *)

Section Irradiation.

Import NeutronIrradiation.

Variable Isotope_halflife : Isotope.t -> float.
Variable Isotope_decay_const : Isotope.t -> float.
Variable parse_date : string -> option datetime.
Variable now : datetime.

(** C8, as the code has it.  With both times normalized, construction
    raises [ValueError] when the stop time is before the start time and
    when both or neither of [n_cm2] and [n_cm2_s] are given; otherwise
    [duration] is [stop - start]; given [n_cm2_s] alone, [n_cm2] is
    [n_cm2_s * duration]; given [n_cm2] alone, it is kept and [n_cm2_s] is
    [None]. *)
Theorem NeutronIrradiation_init (start_time stop_time : date_arg)
    (start stop : datetime) (n_cm2 n_cm2_s : option float) :
  IsotopeQuantity.handle_datetime parse_date start_time = Ok start ->
  IsotopeQuantity.handle_datetime parse_date stop_time = Ok stop ->
  (stop < start ->
   __init__ parse_date start_time stop_time n_cm2 n_cm2_s = Raise ValueError) /\
  (start <= stop ->
   (is_None n_cm2 = is_None n_cm2_s ->
    __init__ parse_date start_time stop_time n_cm2 n_cm2_s = Raise ValueError) /\
   (forall phi : float, n_cm2 = None -> n_cm2_s = Some phi ->
    __init__ parse_date start_time stop_time n_cm2 n_cm2_s =
    Ok (mk start stop (stop - start) (fmul phi (Num (stop - start))) (Some phi))) /\
   (forall n : float, n_cm2 = Some n -> n_cm2_s = None ->
    __init__ parse_date start_time stop_time n_cm2 n_cm2_s =
    Ok (mk start stop (stop - start) n None))).
Proof.
  intros Hs Ht. unfold __init__. rewrite Hs, Ht. cbn [mbind result_bind].
  split.
  - intros Hlt. now rewrite Rltb_true.
  - intros Hle. rewrite Rltb_false by exact Hle. repeat split.
    + intros Hnone. rewrite Hnone. now destruct (is_None n_cm2_s).
    + intros phi -> ->. reflexivity.
    + intros n -> ->. reflexivity.
Qed.

(** C3, on the code: in the backward direction a zero-duration
    irradiation never yields an initial quantity.  With a stable initial
    isotope and an activated quantity whose activity at the stop time is
    [A1], [activate] raises [AttributeError]: the branch reads
    [activated_iso.decay_coeff], which no isotope has. *)
Theorem activate_backward_zero_duration (self : NeutronIrradiation.t)
    (barns : float) (initial_iso : Isotope.t)
    (activated_iso_q : IsotopeQuantity.t) (activated_iso : option Isotope.t) :
  duration self = 0 ->
  raises (activate Isotope_halflife Isotope_decay_const parse_date now
            self barns None (Some initial_iso)
            (Some activated_iso_q) activated_iso) /\
  (forall A1 : float,
     isfinite (Isotope_halflife initial_iso) = false ->
     IsotopeQuantity.bq_at parse_date activated_iso_q (DateTime (stop_time self))
     = Ok A1 ->
     activate Isotope_halflife Isotope_decay_const parse_date now
       self barns None (Some initial_iso) (Some activated_iso_q) activated_iso
     = Raise AttributeError).
Proof.
  intros Hdur.
  assert (forall a_iso,
    activate Isotope_halflife Isotope_decay_const parse_date now
      self barns None (Some initial_iso) (Some activated_iso_q) a_iso =
    if isfinite (Isotope_halflife initial_iso) then Raise NotImplementedError
    else
      bq ← IsotopeQuantity.bq_at parse_date activated_iso_q
             (DateTime (stop_time self));
      Raise AttributeError) as E.
  { intros a_iso. unfold activate. rewrite Hdur, (Reqb_true 0 0 eq_refl).
    destruct a_iso as [a |]; cbn [is_None negb xorb andb mbind result_bind
      from_option isotope_of];
      destruct (isfinite (Isotope_halflife initial_iso)); try reflexivity;
      destruct (IsotopeQuantity.bq_at parse_date activated_iso_q
                  (DateTime (stop_time self))); reflexivity. }
  split.
  - rewrite E. destruct (isfinite (Isotope_halflife initial_iso));
      [eexists; reflexivity |].
    destruct (IsotopeQuantity.bq_at parse_date activated_iso_q
                (DateTime (stop_time self))); eexists; reflexivity.
  - intros A1 Hst Hbq. rewrite E, Hst, Hbq. reflexivity.
Qed.

(** The forward direction of a zero-duration irradiation, for comparison:
    from [N0] atoms of a stable isotope it builds the activated quantity
    from the activity [n * sigma * N0 * lambda], with [decay_const] as
    [lambda]. *)
Lemma activate_forward_zero_duration (self : NeutronIrradiation.t)
    (b n N0 lam : R) (initial_iso_q : IsotopeQuantity.t) (activated_iso : Isotope.t) :
  duration self = 0 ->
  n_cm2 self = Num n ->
  isfinite (Isotope_halflife (IsotopeQuantity.isotope initial_iso_q)) = false ->
  IsotopeQuantity.atoms_at parse_date initial_iso_q (DateTime (stop_time self))
  = Ok (Num N0) ->
  Isotope_decay_const activated_iso = Num lam ->
  0 < lam ->
  0 <= n * (b * 1.0e-24) * N0 * lam ->
  activate Isotope_halflife Isotope_decay_const parse_date now
    self (Num b) (Some initial_iso_q) None None (Some activated_iso)
  = Ok (IsotopeQuantity.mk activated_iso (Isotope_halflife activated_iso)
          (Num lam) (stop_time self) true
          (Num (n * (b * 1.0e-24) * N0 * lam / lam))).
Proof.
  intros Hdur Hn Hst Hat Hlam Hpos Hbq. unfold activate.
  cbn [is_None negb xorb andb mbind result_bind isotope_of from_option].
  rewrite Hst, Hdur, (Reqb_true 0 0 eq_refl), Hn, Hat.
  cbn [mbind result_bind from_option fmul]. rewrite Hlam. cbn [fmul].
  unfold IsotopeQuantity.__init__, IsotopeQuantity.atoms_from.
  cbn [IsotopeQuantity._init_date IsotopeQuantity.handle_datetime mbind
       result_bind].
  rewrite Hlam.
  set (bq := Num (n * (b * 1.0e-24) * N0 * lam)).
  change (({[ "bq" := bq ]} : kwargs) !! "atoms") with (@None float).
  change (({[ "bq" := bq ]} : kwargs) !! "g") with (@None float).
  change ({[ "bq" := bq ]} !! "bq") with (Some bq).
  cbn [flt]. rewrite (Rltb_true 0 lam Hpos). cbv beta iota.
  unfold IsotopeQuantity._check_positive_qty, bq. cbn [flt].
  rewrite Rltb_false by exact Hbq. cbn [mbind result_bind].
  rewrite fdiv_Num by lra. reflexivity.
Qed.

(** The quantity the forward direction builds has the activity it was
    built from, at the stop time. *)
Lemma forward_activity_at_stop (activated_iso : Isotope.t) (T lam x stop : R) :
  T <> 0 -> lam <> 0 ->
  IsotopeQuantity.bq_at parse_date
    (IsotopeQuantity.mk activated_iso (Num T) (Num lam) stop true (Num (x / lam)))
    (DateTime stop)
  = Ok (Num x).
Proof.
  intros HT Hlam. unfold IsotopeQuantity.bq_at.
  rewrite (atoms_at_unfold parse_date _ (DateTime stop) stop eq_refl)
    by (apply guard_not_before; cbn; lra).
  cbn [IsotopeQuantity.halflife IsotopeQuantity.ref_date
       IsotopeQuantity.ref_atoms IsotopeQuantity.decay_const].
  rewrite fdiv_Num by exact HT. cbn [mbind result_bind pow2 fmul].
  replace (- (stop - stop) / T) with 0 by (field; exact HT).
  rewrite Rpower_2_0. do 2 f_equal. field. exact Hlam.
Qed.

End Irradiation.

(** ** The identifier parser and the isotope invariant *)

Section ParserProperties.

Variable lookup : pyval -> option Element.

(** The loop of [_split_element_mass] returns an element id at least as
    long as every candidate's and as the initial one, and either a
    candidate or the initial choice. *)
Lemma choose_longest_spec (cands : list (string * string)) (e0 m0 : string) :
  let r := choose_longest cands e0 m0 in
  (In r cands \/ r = (e0, m0)) /\
  (String.length e0 <= String.length (fst r))%nat /\
  (forall e' m', In (e', m') cands ->
     (String.length e' <= String.length (fst r))%nat).
Proof.
  revert e0 m0. induction cands as [| [e m] rest IH]; intros e0 m0; simpl.
  - repeat split; [now right | lia | intros e' m' []].
  - destruct (String.length e0 <? String.length e)%nat eqn:Hlt.
    + apply Nat.ltb_lt in Hlt.
      destruct (IH e m) as (Hin & Hlen & Hmax). repeat split.
      * destruct Hin as [Hin | ->]; left; [now right | now left].
      * lia.
      * intros e' m' [[= <- <-] | Hin'];
          [exact Hlen | now apply (Hmax e' m')].
    + apply Nat.ltb_ge in Hlt.
      destruct (IH e0 m0) as (Hin & Hlen & Hmax). repeat split.
      * destruct Hin as [Hin | ->]; [left; now right | now right].
      * exact Hlen.
      * intros e' m' [[= <- <-] | Hin']; [lia | now apply (Hmax e' m')].
Qed.

Lemma digits_value_nonneg (s : string) (seen : bool) (acc z : Z) :
  (0 <= acc)%Z -> PyStr.digits_value seen acc s = Some z -> (0 <= z)%Z.
Proof.
  revert seen acc. induction s as [| c s IH]; intros seen acc Hacc; simpl.
  - destruct seen; [intros [= <-]; exact Hacc | discriminate].
  - destruct (PyStr.is_decimal c).
    + apply IH. lia.
    + destruct (Ascii.eqb c "_" && seen); [apply IH; exact Hacc |].
      destruct (seen && _); [intros [= <-]; exact Hacc | discriminate].
Qed.

Lemma int_of_str_digits_nonneg (s : string) (z : Z) :
  PyStr.isdigit s = true -> PyStr.int_of_str s = Some z -> (0 <= z)%Z.
Proof.
  destruct s as [| c s]; [discriminate |].
  unfold PyStr.isdigit. simpl. intros Hd.
  apply andb_prop in Hd as [Hc _].
  destruct c as [[] [] [] [] [] [] [] []]; try discriminate Hc;
    match goal with
    | |- PyStr.int_of_str ?t = _ -> _ =>
        change (PyStr.int_of_str t) with (PyStr.digits_value false 0 t)
    end;
    apply digits_value_nonneg; lia.
Qed.

Lemma init_A_bound (arg : pyval) (a : Z) :
  Isotope._init_A arg = Ok a -> (1 <= a)%Z.
Proof.
  unfold Isotope._init_A.
  destruct (Isotope.int_of arg) as [z | []]; simpl; try discriminate.
  destruct (z <? 1)%Z eqn:H; [discriminate |].
  intros [= <-]. apply Z.ltb_ge in H. exact H.
Qed.

Lemma init_m_int (z : Z) (m : string) (M : Z) :
  Isotope._init_m (PInt z) = Ok (m, M) -> M = z /\ (0 <= M)%Z /\ m = isomer_code M.
Proof.
  unfold Isotope._init_m, isomer_code.
  destruct z as [| p | p].
  - intros [= <- <-]. repeat split. lia.
  - destruct (Z.pos p =? 1)%Z eqn:H1.
    + intros [= <- <-]. apply Z.eqb_eq in H1. rewrite H1. repeat split. lia.
    + destruct (2 <=? Z.pos p)%Z eqn:H2; [| discriminate].
      intros [= <- <-]. rewrite H1. repeat split. lia.
  - destruct (Z.neg p =? 1)%Z eqn:H1; [apply Z.eqb_eq in H1; lia |].
    destruct (2 <=? Z.neg p)%Z eqn:H2; [apply Z.leb_le in H2; lia | discriminate].
Qed.

Lemma init_m_nonneg (arg : pyval) (m : string) (M : Z) :
  Isotope._init_m arg = Ok (m, M) -> (0 <= M)%Z.
Proof.
  destruct arg as [s | z |].
  - destruct s as [| c s]; [intros [= <- <-]; lia |].
    unfold Isotope._init_m.
    set (low := PyStr.lower (String c s)).
    destruct (PyStr.index0 low) as [c0 |]; cbn [mbind result_bind];
      [| discriminate].
    destruct (negb (Ascii.eqb c0 "m")); [discriminate |].
    destruct (1 <? String.length low)%nat; [| intros [= <- <-]; lia].
    destruct (PyStr.isdigit (PyStr.slice_from 1 low)) eqn:Hd;
      cbn [negb]; [| discriminate].
    unfold Isotope.int_of.
    destruct (PyStr.int_of_str (PyStr.slice_from 1 low)) as [z |] eqn:Hz;
      cbn [mbind result_bind]; [| discriminate].
    intros [= <- <-]. eapply int_of_str_digits_nonneg; eassumption.
  - intros H. apply init_m_int in H. tauto.
  - intros [= <- <-]. lia.
Qed.

Lemma finish_bounds (e : Element) (a : Z) (mM : string * Z) (iso : Isotope.t) :
  Isotope.finish e a mM = Ok iso ->
  Isotope.A iso = a /\ Isotope.M iso = snd mM /\ Isotope.m iso = fst mM /\
  Isotope.N iso = (a - atomic_Z (Isotope.element iso))%Z /\
  (0 <= Isotope.N iso)%Z.
Proof.
  unfold Isotope.finish. destruct (a - atomic_Z e <? 0)%Z eqn:H; [discriminate |].
  intros [= <-]. simpl. apply Z.ltb_ge in H. repeat split. exact H.
Qed.

(** X1. The numeric part of the isotope invariant holds after every
    successful construction: [A >= 1], [N = A - Z >= 0] and [M >= 0]. *)
Lemma Isotope_init_bounds (args : list pyval) (iso : Isotope.t) :
  Isotope.__init__ lookup args = Ok iso ->
  (1 <= Isotope.A iso)%Z /\
  Isotope.N iso = (Isotope.A iso - atomic_Z (Isotope.element iso))%Z /\
  (0 <= Isotope.N iso)%Z /\ (0 <= Isotope.M iso)%Z.
Proof.
  assert (forall e a mM r, Isotope._init_A r = Ok a ->
            (exists arg, Isotope._init_m arg = Ok mM) \/ mM = ("", 0%Z) ->
            Isotope.finish e a mM = Ok iso ->
            (1 <= Isotope.A iso)%Z /\
            Isotope.N iso = (Isotope.A iso - atomic_Z (Isotope.element iso))%Z /\
            (0 <= Isotope.N iso)%Z /\ (0 <= Isotope.M iso)%Z) as Hfin.
  { intros e a [m M] r Ha Hm Hf.
    apply finish_bounds in Hf as (HA & HM & _ & HN & HN0).
    apply init_A_bound in Ha. rewrite HA.
    split; [lia |]. split; [exact HN |]. split; [exact HN0 |].
    rewrite HM. cbn [snd].
    destruct Hm as [[arg Hm] | [= _ ->]]; [| lia].
    eapply init_m_nonneg. exact Hm. }
  unfold Isotope.__init__. destruct args as [| a0 [| a1 rest]]; [discriminate | |].
  - destruct a0 as [s | |]; try discriminate.
    destruct (parse_isotope lookup s) as [[[sym aa] mm] |]; cbn [mbind result_bind]; [| discriminate].
    destruct (element_Element lookup (PStr sym)) as [e |]; cbn [mbind result_bind]; [| discriminate].
    destruct (Isotope._init_A (PInt aa)) as [a |] eqn:Ha; cbn [mbind result_bind]; [| discriminate].
    destruct (Isotope._init_m (PStr mm)) as [mM |] eqn:Hm; cbn [mbind result_bind]; [| discriminate].
    apply (Hfin e a mM (PInt aa) Ha). left. eauto.
  - destruct rest as [| a2 [| a3 rest]]; try discriminate.
    + destruct (lookup a0) as [e |]; cbn [mbind result_bind]; [| discriminate].
      destruct (Isotope._init_A a1) as [a |] eqn:Ha; cbn [mbind result_bind]; [| discriminate].
      apply (Hfin e a _ a1 Ha). now right.
    + destruct (lookup a0) as [e |]; cbn [mbind result_bind]; [| discriminate].
      destruct (Isotope._init_A a1) as [a |] eqn:Ha; cbn [mbind result_bind]; [| discriminate].
      destruct (Isotope._init_m a2) as [mM |] eqn:Hm; cbn [mbind result_bind]; [| discriminate].
      apply (Hfin e a mM a1 Ha). left. eauto.
Qed.

End ParserProperties.

(** ** The properties on concrete instances *)

Lemma atoms_at_eight_Na_24_start (parse_date : string -> option datetime) :
  IsotopeQuantity.atoms_at parse_date eight_Na_24 (DateTime 0) = Ok (Num 8).
Proof.
  rewrite (atoms_at_unfold parse_date eight_Na_24 (DateTime 0) 0 eq_refl)
    by (apply guard_not_before; cbn; lra).
  cbn [IsotopeQuantity.halflife IsotopeQuantity.ref_date
       IsotopeQuantity.ref_atoms eight_Na_24].
  rewrite fdiv_Num by lra. cbn [mbind result_bind pow2 fmul].
  replace (- (0 - 0) / 54000) with 0 by lra.
  rewrite Rpower_2_0. do 2 f_equal. lra.
Qed.

Lemma atoms_at_decay_law_witness :
  IsotopeQuantity.atoms_at no_date_strings eight_Na_24 (DateTime 54000)
  = Ok (Num (8 / 2)).
Proof.
  refine (proj2 (proj2 (proj1
    (atoms_at_decay_law no_date_strings eight_Na_24 (DateTime 54000) 54000
       eq_refl _) 54000 eq_refl _)) _ 8 eq_refl);
    cbn [IsotopeQuantity.ref_date eight_Na_24]; lra.
Defined.



Lemma bq_at_eight_Na_24_start (parse_date : string -> option datetime) :
  IsotopeQuantity.bq_at parse_date eight_Na_24 (DateTime 0)
  = Ok (Num (8 * (ln 2 / 54000))).
Proof.
  unfold IsotopeQuantity.bq_at. rewrite atoms_at_eight_Na_24_start. reflexivity.
Qed.

Lemma before_creation_date_witness :
  (exists msg : string,
     IsotopeQuantity.atoms_at no_date_strings eight_Na_24 (DateTime (-1))
     = Raise (IsotopeError msg)) /\
  IsotopeQuantity.time_when eight_Na_24 {[ "atoms" := Num 16 ]} = Ok None.
Proof.
  destruct (before_creation_date no_date_strings eight_Na_24 eq_refl)
    as [Hat Hwhen].
  split.
  - destruct (Hat (DateTime (-1)) (-1) eq_refl) as (msg & H & _).
    + cbn. lra.
    + exists msg. exact H.
  - assert (1 < 16 / 8) as Hratio by lra.
    assert (0 < ln (16 / 8)) as Hln.
    { rewrite <- ln_1. apply ln_increasing; lra. }
    pose proof ln_2_pos as H2.
    apply (Hwhen _ (Num 16) (Num (16 / 8)) eq_refl).
    + unfold IsotopeQuantity._atoms_from_kwargs, IsotopeQuantity.atoms_from.
      change ({[ "atoms" := Num 16 ]} !! "atoms") with (Some (Num 16)).
      unfold IsotopeQuantity._check_positive_qty. cbn [flt].
      now rewrite Rltb_false by lra.
    + cbn [IsotopeQuantity.ref_atoms eight_Na_24]. apply fdiv_Num. lra.
    + cbn [IsotopeQuantity.halflife eight_Na_24 fneg np_log2].
      rewrite Reqb_false by lra. rewrite Rltb_false by lra.
      cbn [fmul flt]. apply Rltb_true.
      assert (0 < ln (16 / 8) / ln 2) by (apply Rdiv_lt_0_compat; assumption).
      lra.
Defined.

Lemma stable_isotope_guard_witness :
  IsotopeQuantity.__init__ sample_halflife sample_decay_const no_date_strings 0
    Na_23 None true {[ "bq" := Num 1 ]}
  = Raise (IsotopeError stable_msg).
Proof.
  refine (proj1 (stable_isotope_guard sample_halflife sample_decay_const
                   no_date_strings 0 Na_23 eq_refl eq_refl)
            None 0 true {[ "bq" := Num 1 ]} eq_refl eq_refl eq_refl _).
  left. exists (Num 1). reflexivity.
Defined.

Lemma quantity_keywords_witness :
  IsotopeQuantity.__init__ sample_halflife sample_decay_const no_date_strings 0
    Na_24 None true {[ "atoms" := Num 1; "g" := Num 2 ]}
  = Ok (IsotopeQuantity.mk Na_24 (sample_halflife Na_24)
          (sample_decay_const Na_24) 0 true (Num 1)) /\
  IsotopeQuantity.time_when eight_Na_24 {[ "atoms" := Num (-1); "g" := Num 2 ]}
  = Raise ValueError.
Proof.
  destruct (quantity_keywords sample_halflife sample_decay_const
              no_date_strings 0 Na_24 eight_Na_24
              {[ "atoms" := Num 1; "g" := Num 2 ]})
    as (_ & _ & Hatoms & _).
  destruct (quantity_keywords sample_halflife sample_decay_const
              no_date_strings 0 Na_24 eight_Na_24
              {[ "atoms" := Num (-1); "g" := Num 2 ]})
    as (_ & _ & _ & Hneg).
  split.
  - apply (Hatoms 1 None 0 true eq_refl ltac:(lra) eq_refl).
  - assert (flt (Num (-1)) 0 = true) as Hv by (cbn [flt]; apply Rltb_true; lra).
    exact (proj2 (proj1 (Hneg (Num (-1)) Hv) (or_introl eq_refl)) eq_refl).
Defined.

(** Two keywords at once are accepted: [atoms] wins and [g] is ignored. *)
Lemma two_keywords_accepted :
  IsotopeQuantity.__init__ sample_halflife sample_decay_const no_date_strings 0
    Na_23 None true {[ "atoms" := Num 1; "g" := Num 2 ]}
  = Ok (IsotopeQuantity.mk Na_23 PInf (Num 0) 0 true (Num 1)) /\
  IsotopeQuantity.time_when eight_Na_24 {[ "atoms" := Num 8; "g" := Num 2 ]}
  = Ok (Some (0 + 0)).
Proof.
  split.
  - unfold IsotopeQuantity.__init__, IsotopeQuantity.atoms_from.
    cbn [IsotopeQuantity._init_date mbind result_bind].
    change ({[ "atoms" := Num 1; "g" := Num 2 ]} !! "atoms") with (Some (Num 1)).
    unfold IsotopeQuantity._check_positive_qty. cbn [flt].
    rewrite Rltb_false by lra. reflexivity.
  - rewrite (time_when_unfold eight_Na_24 _ 54000 8 8 eq_refl eq_refl);
      try lra.
    + assert (solved_dt 54000 8 8 = 0) as ->.
      { unfold solved_dt. replace (8 / 8) with 1 by lra. rewrite ln_1. lra. }
      rewrite Rltb_false by lra. cbn [andb].
      apply (date_in_range 0 0);
        unfold timedelta_min, timedelta_max, datetime_min, datetime_max; lra.
    + unfold IsotopeQuantity._atoms_from_kwargs, IsotopeQuantity.atoms_from.
      change ({[ "atoms" := Num 8; "g" := Num 2 ]} !! "atoms") with (Some (Num 8)).
      unfold IsotopeQuantity._check_positive_qty. cbn [flt].
      now rewrite Rltb_false by lra.
Qed.

Lemma NeutronIrradiation_init_witness :
  NeutronIrradiation.__init__ no_date_strings (DateTime 0) (DateTime 10)
    None (Some (Num 2))
  = Ok (NeutronIrradiation.mk 0 10 (10 - 0) (fmul (Num 2) (Num (10 - 0)))
          (Some (Num 2))).
Proof.
  refine (proj1 (proj2 (proj2 (NeutronIrradiation_init no_date_strings
    (DateTime 0) (DateTime 10) 0 10 None (Some (Num 2)) eq_refl eq_refl) _))
    (Num 2) eq_refl eq_refl).
  lra.
Defined.

(** Given [n_cm2] alone, the fluence rate is not derived from it and the
    duration: [n_cm2_s] is [None]. *)
Lemma fluence_rate_not_derived :
  exists r : NeutronIrradiation.t,
    NeutronIrradiation.__init__ no_date_strings (DateTime 0) (DateTime 10)
      (Some (Num 5)) None = Ok r /\
    NeutronIrradiation.duration r = 10 - 0 /\
    NeutronIrradiation.n_cm2_s r = None.
Proof.
  eexists. unfold NeutronIrradiation.__init__.
  cbn [IsotopeQuantity.handle_datetime mbind result_bind].
  rewrite Rltb_false by lra.
  cbn [NeutronIrradiation.is_None xorb negb].
  repeat split.
Qed.

Lemma activate_backward_zero_duration_witness :
  NeutronIrradiation.activate sample_halflife sample_decay_const
    no_date_strings 0 pulse (Num 0.5) None (Some Na_23)
    (Some eight_Na_24) (Some Na_24)
  = Raise AttributeError.
Proof.
  exact (proj2 (activate_backward_zero_duration sample_halflife
    sample_decay_const no_date_strings 0 pulse (Num 0.5) Na_23 eight_Na_24
    (Some Na_24) eq_refl) (Num (8 * (ln 2 / 54000))) eq_refl
    (bq_at_eight_Na_24_start no_date_strings)).
Defined.

Lemma decays_from_eight_Na_24_start (parse_date : string -> option datetime)
    (start_time stop_time : date_arg) :
  IsotopeQuantity.handle_datetime parse_date start_time = Ok 0 ->
  IsotopeQuantity.handle_datetime parse_date stop_time = Ok 0 ->
  IsotopeQuantity.decays_from parse_date eight_Na_24 start_time stop_time
  = Ok (Num (8 + - 8)).
Proof.
  intros H0 H1.
  assert (forall d, IsotopeQuantity.handle_datetime parse_date d = Ok 0 ->
            IsotopeQuantity.atoms_at parse_date eight_Na_24 d = Ok (Num 8)) as E.
  { intros d Hd. rewrite <- (atoms_at_eight_Na_24_start parse_date).
    unfold IsotopeQuantity.atoms_at. rewrite Hd. reflexivity. }
  unfold IsotopeQuantity.decays_from. rewrite (E _ H0), (E _ H1). reflexivity.
Qed.

Lemma bq_from_raw_arguments_witness :
  IsotopeQuantity.bq_from epoch_only eight_Na_24 (DateTime 0) (DateTime 0)
  = Raise ZeroDivisionError /\
  IsotopeQuantity.decays_from epoch_only eight_Na_24
    (DateStr "1970-01-01") (DateTime 0) = Ok (Num (8 + - 8)) /\
  IsotopeQuantity.bq_from epoch_only eight_Na_24
    (DateStr "1970-01-01") (DateTime 0) = Raise TypeError.
Proof.
  destruct (bq_from_raw_arguments epoch_only eight_Na_24)
    as (_ & Hstr & Hzero).
  pose proof (decays_from_eight_Na_24_start epoch_only
                (DateStr "1970-01-01") (DateTime 0) eq_refl eq_refl) as Hd.
  split; [| split].
  - exact (proj1 (Hzero 0 _ (decays_from_eight_Na_24_start epoch_only
                               (DateTime 0) (DateTime 0) eq_refl eq_refl))).
  - exact Hd.
  - destruct (Hstr (DateStr "1970-01-01") (DateTime 0)) as (_ & _ & H).
    + left. eexists. reflexivity.
    + exact (proj1 (H _ Hd)).
Defined.

(** The docstring of [_split_element_mass] gives ('TC', '99M') for
    'TC99M'; the hyphen-free branch returns the resolved symbol. *)
Example split_TC99M :
  _split_element_mass PeriodicTable.lookup "TC99M" = Ok ("Tc", "99M").
Proof. vm_compute. reflexivity. Qed.

Example split_Hf_178m3 :
  _split_element_mass PeriodicTable.lookup "Hf-178m3" = Ok ("Hf", "178m3").
Proof. vm_compute. reflexivity. Qed.

Example longest_token_178M2HF :
  longest_token (token_candidates PeriodicTable.lookup "178M2HF") None
  = Some ("HF", "Hf", "178M2").
Proof. vm_compute. reflexivity. Qed.

Example longest_token_238U :
  longest_token (token_candidates PeriodicTable.lookup "238U") None
  = Some ("U", "U", "238").
Proof. vm_compute. reflexivity. Qed.

(** C4, on the code.  "131Iodine" has two resolving splits: the token
    "Iodine" (symbol I, mass part "131") and the token "ne" (symbol Ne,
    mass part "131Iodi").  The longest element token is "Iodine", but the
    loop of [_split_element_mass] compares the lengths of the resolved
    symbols, takes Ne, and [parse_isotope] then fails on the mass part;
    the hyphenated spelling of the same isotope parses. *)
Theorem parse_131Iodine :
  token_candidates PeriodicTable.lookup "131Iodine"
  = [("Iodine", "I", "131"); ("ne", "Ne", "131Iodi")] /\
  longest_token (token_candidates PeriodicTable.lookup "131Iodine") None
  = Some ("Iodine", "I", "131") /\
  _split_element_mass PeriodicTable.lookup "131Iodine" = Ok ("Ne", "131Iodi") /\
  parse_isotope PeriodicTable.lookup "131Iodine"
  = Raise (IsotopeError "Mass number cannot be converted to int") /\
  parse_isotope PeriodicTable.lookup "131-Iodine" = Ok ("Iodine", 131%Z, "").
Proof. vm_compute. repeat split. Qed.

(** C9, on the code.  A string isomer specifier is stored as it is
    written, so "m0" gives [M = 0] with a non-empty [m], and "m1" gives
    [M = 1] with [m = "m1"], where the integer 1 gives [m = "m"]: [m] is
    not the code of [M]. *)
Theorem Isotope_m_not_code_of_M :
  Isotope.__init__ PeriodicTable.lookup [PStr "Tc-99m0"]
  = Ok (Isotope.mk (mkElement "Tc" "Technetium" 43) 99 56 0 "m0") /\
  isomer_code 0 = "" /\
  Isotope.__init__ PeriodicTable.lookup [PStr "Tc"; PInt 99; PStr "m1"]
  = Ok (Isotope.mk (mkElement "Tc" "Technetium" 43) 99 56 1 "m1") /\
  Isotope.__init__ PeriodicTable.lookup [PStr "Tc"; PInt 99; PInt 1]
  = Ok (Isotope.mk (mkElement "Tc" "Technetium" 43) 99 56 1 "m") /\
  isomer_code 1 = "m".
Proof. vm_compute. repeat split. Qed.

(** ** Formatting *)

Example format_Hf_178m2 :
  Isotope.__format__
    (Isotope.mk (mkElement "Hf" "Hafnium" 72) 178 106 2 "m2")
    "%n(%s)-%a%m Z=%z A=%a"
  = "Hafnium(Hf)-178m2 Z=72 A=178".
Proof. vm_compute. reflexivity. Qed.

Example str_Tc_99m :
  Isotope.__str__ (Isotope.mk (mkElement "Tc" "Technetium" 43) 99 56 1 "m")
  = "Tc-99m".
Proof. vm_compute. reflexivity. Qed.

Example replace_overlap : PyStr.replace "aa" "b" "aaa" = "ba".
Proof. reflexivity. Qed.

Example replace_empty_old : PyStr.replace "" "-" "abc" = "-a-b-c-".
Proof. reflexivity. Qed.

(** ** Facts on Python strings *)

Lemma split_not_nil (c : ascii) (s : string) : PyStr.split c s <> [].
Proof.
  induction s as [| d s IH]; simpl; [discriminate |].
  destruct (Ascii.eqb c d); [discriminate |].
  destruct (PyStr.split c s); [contradiction | discriminate].
Qed.

Lemma split_without_sep (c : ascii) (s : string) :
  PyStr.contains c s = false -> PyStr.split c s = [s].
Proof.
  induction s as [| d s IH]; simpl; [reflexivity |].
  destruct (Ascii.eqb c d); simpl; [discriminate |].
  intros H. now rewrite (IH H).
Qed.

Lemma split_at_sep (c : ascii) (a b : string) :
  PyStr.contains c a = false ->
  PyStr.split c (a +:+ String c b) = a :: PyStr.split c b.
Proof.
  induction a as [| d a IH]; simpl.
  - intros _. now rewrite Ascii.eqb_refl.
  - destruct (Ascii.eqb c d); simpl; [discriminate |].
    intros H. now rewrite (IH H).
Qed.

Lemma split_with_sep_length (c : ascii) (a b : string) :
  (2 <= length (PyStr.split c (a +:+ String c b)))%nat.
Proof.
  induction a as [| d a IH]; simpl.
  - rewrite Ascii.eqb_refl. simpl.
    pose proof (split_not_nil c b). destruct (PyStr.split c b); [contradiction |].
    simpl. lia.
  - destruct (Ascii.eqb c d); simpl.
    + destruct (PyStr.split c (a +:+ String c b)); simpl in *; lia.
    + destruct (PyStr.split c (a +:+ String c b)); simpl in *; lia.
Qed.

Lemma contains_app (c : ascii) (a b : string) :
  PyStr.contains c (a +:+ b) = PyStr.contains c a || PyStr.contains c b.
Proof.
  induction a as [| d a IH]; simpl; [reflexivity |].
  rewrite IH. now rewrite orb_assoc.
Qed.

Lemma contains_all_chars (f : ascii -> bool) (c : ascii) (s : string) :
  f c = false -> PyStr.all_chars f s = true -> PyStr.contains c s = false.
Proof.
  intros Hc. induction s as [| d s IH]; simpl; [reflexivity |].
  intros H. apply andb_prop in H as [Hd Hs].
  rewrite (IH Hs), orb_false_r.
  destruct (Ascii.eqb_spec c d) as [-> | _]; [congruence | reflexivity].
Qed.

Lemma is_alpha_not_digit (c : ascii) :
  PyStr.is_alpha c = true -> PyStr.is_digit c = false.
Proof.
  destruct c as [[] [] [] [] [] [] [] []]; intros H;
    try reflexivity; discriminate H.
Qed.

Lemma is_digit_not_alpha (c : ascii) :
  PyStr.is_digit c = true -> PyStr.is_alpha c = false.
Proof.
  destruct c as [[] [] [] [] [] [] [] []]; intros H;
    try reflexivity; discriminate H.
Qed.

Lemma slice_to_from (j : nat) (s : string) :
  PyStr.slice_to j s +:+ PyStr.slice_from j s = s.
Proof.
  revert s. induction j as [| j IH]; intros s; [reflexivity |].
  destruct s as [| c s]; [reflexivity |].
  change (String c (PyStr.slice_to j s +:+ PyStr.slice_from j s) = String c s).
  f_equal. apply IH.
Qed.

Lemma slice_from_head (f : ascii -> bool) (j : nat) (s : string) :
  PyStr.all_chars f s = true -> (j < String.length s)%nat ->
  exists c r, PyStr.slice_from j s = String c r /\ f c = true.
Proof.
  revert s. induction j as [| j IH]; intros s Hall Hlt.
  - destruct s as [| c s]; [simpl in Hlt; lia |].
    simpl in Hall. apply andb_prop in Hall as [Hc _]. simpl. eauto.
  - destruct s as [| c s]; [simpl in Hlt; lia |].
    simpl in Hall. apply andb_prop in Hall as [_ Hs].
    simpl. apply IH; [exact Hs | simpl in Hlt; lia].
Qed.

Lemma slice_to_head (f : ascii -> bool) (j : nat) (s : string) :
  PyStr.all_chars f s = true -> (1 <= j)%nat -> (1 <= String.length s)%nat ->
  exists c r, PyStr.slice_to j s = String c r /\ f c = true.
Proof.
  intros Hall Hj Hlen. destruct j as [| j]; [lia |].
  destruct s as [| c s]; [simpl in Hlen; lia |].
  simpl in Hall. apply andb_prop in Hall as [Hc _]. simpl. eauto.
Qed.

(** ** Error behaviour of the element/mass split *)

Section SplitErrors.

Variable lookup : pyval -> option Element.

(** X2. A string with two or more hyphens is rejected, whatever is between
    them. *)
Theorem split_two_hyphens (a b c : string) :
  _split_element_mass lookup (a +:+ "-" +:+ b +:+ "-" +:+ c)
  = Raise (IsotopeError "Too many hyphens in isotope string").
Proof.
  unfold _split_element_mass.
  rewrite contains_app. change (PyStr.contains "-" ("-" +:+ b +:+ "-" +:+ c))
    with true. rewrite orb_true_r.
  assert (3 <= length (PyStr.split "-" (a +:+ "-" +:+ b +:+ "-" +:+ c)))%nat
    as Hlen.
  { clear. induction a as [| d a IH].
    - change (PyStr.split "-" ("" +:+ "-" +:+ b +:+ "-" +:+ c))
        with ("" :: PyStr.split "-" (b +:+ String "-" c)).
      pose proof (split_with_sep_length "-" b c). simpl. simpl in H. lia.
    - change (PyStr.split "-" (String d a +:+ "-" +:+ b +:+ "-" +:+ c))
        with (if Ascii.eqb "-" d
              then "" :: PyStr.split "-" (a +:+ "-" +:+ b +:+ "-" +:+ c)
              else match PyStr.split "-" (a +:+ "-" +:+ b +:+ "-" +:+ c) with
                   | t :: ts => String d t :: ts
                   | [] => [String d ""]
                   end).
      destruct (Ascii.eqb "-" d); [simpl; lia |].
      destruct (PyStr.split "-" (a +:+ "-" +:+ b +:+ "-" +:+ c));
        simpl in *; lia. }
  destruct (PyStr.split "-" (a +:+ "-" +:+ b +:+ "-" +:+ c))
    as [| t0 [| t1 [| t2 ts]]]; simpl in Hlen; try lia.
  reflexivity.
Qed.

(** X3. A hyphen with nothing before it, or with nothing after an alphabetic
    token, makes the split index an empty token: the [IndexError] is not
    caught. *)
Theorem split_dangling_hyphen (s : string) :
  (PyStr.contains "-" s = false ->
   _split_element_mass lookup ("-" +:+ s) = Raise IndexError) /\
  (PyStr.isalpha s = true ->
   _split_element_mass lookup (s +:+ "-") = Raise IndexError).
Proof.
  split.
  - intros Hs. unfold _split_element_mass.
    change (PyStr.contains "-" ("-" +:+ s)) with true.
    change (PyStr.split "-" ("-" +:+ s)) with ("" :: PyStr.split "-" s).
    rewrite (split_without_sep _ _ Hs). reflexivity.
  - intros Halpha. unfold _split_element_mass.
    assert (PyStr.contains "-" s = false) as Hs.
    { unfold PyStr.isalpha in Halpha. apply andb_prop in Halpha as [_ Hall].
      now apply (contains_all_chars PyStr.is_alpha). }
    rewrite contains_app. change (PyStr.contains "-" "-") with true.
    rewrite orb_true_r.
    rewrite (split_at_sep "-" s "" Hs).
    change (PyStr.split "-" "") with [""].
    unfold split_hyphenated. rewrite Halpha. reflexivity.
Qed.

(** The loop collects nothing from parts whose first characters are not
    one a digit and the other a letter. *)
Lemma collect_candidates_skip (parts : list (string * string))
    (element_ids mass_isomers : list string) :
  Forall (fun p =>
            exists c1 r1 c2 r2,
              p = (String c1 r1, String c2 r2) /\
              PyStr.is_digit c1 && PyStr.is_alpha c2 = false /\
              PyStr.is_alpha c1 && PyStr.is_digit c2 = false) parts ->
  collect_candidates lookup parts element_ids mass_isomers
  = Ok (element_ids, mass_isomers).
Proof.
  induction 1 as [| p parts (c1 & r1 & c2 & r2 & -> & H1 & H2) _ IH];
    [reflexivity |].
  cbn [collect_candidates PyStr.index0 mbind result_bind].
  destruct (PyStr.is_digit c1); cbn [mbind result_bind PyStr.index0].
  - cbn [andb] in H1. rewrite H1.
    destruct (PyStr.is_alpha c1); cbn [mbind result_bind PyStr.index0];
      [cbn [andb] in H2; rewrite H2 |]; exact IH.
  - destruct (PyStr.is_alpha c1); cbn [mbind result_bind PyStr.index0];
      [cbn [andb] in H2; rewrite H2 |]; exact IH.
Qed.

(** X4. A hyphen-free string made of letters only, or of digits only (the
    empty string too), has no candidate split. *)
Theorem split_one_kind (arg : string) :
  PyStr.all_chars PyStr.is_alpha arg = true \/
  PyStr.all_chars PyStr.is_digit arg = true ->
  _split_element_mass lookup arg
  = Raise (IsotopeError "Could not find element for isotope").
Proof.
  intros Hkind.
  assert (PyStr.contains "-" arg = false) as Hs.
  { destruct Hkind as [H | H];
      [apply (contains_all_chars PyStr.is_alpha) |
       apply (contains_all_chars PyStr.is_digit)]; auto. }
  unfold _split_element_mass, split_unhyphenated. rewrite Hs.
  rewrite collect_candidates_skip; [reflexivity |].
  rewrite List.Forall_forall. intros [p1 p2] Hin.
  apply in_combine_l in Hin as Hin1. apply in_combine_r in Hin as Hin2.
  apply in_map_iff in Hin1 as (j1 & <- & Hj1).
  apply in_map_iff in Hin2 as (j2 & <- & Hj2).
  apply in_seq in Hj1, Hj2.
  destruct Hkind as [H | H].
  - destruct (slice_from_head _ j1 arg H) as (c1 & r1 & -> & Hc1); [lia |].
    destruct (slice_to_head _ j2 arg H) as (c2 & r2 & -> & Hc2); [lia | lia |].
    exists c1, r1, c2, r2. repeat split.
    + now rewrite (is_alpha_not_digit c1 Hc1).
    + now rewrite (is_alpha_not_digit c2 Hc2), andb_false_r.
  - destruct (slice_from_head _ j1 arg H) as (c1 & r1 & -> & Hc1); [lia |].
    destruct (slice_to_head _ j2 arg H) as (c2 & r2 & -> & Hc2); [lia | lia |].
    exists c1, r1, c2, r2. repeat split.
    + now rewrite (is_digit_not_alpha c2 Hc2), andb_false_r.
    + now rewrite (is_digit_not_alpha c1 Hc1).
Qed.

End SplitErrors.

(** ** The split of a hyphen-free string *)

Section SplitUnhyphenated.

Local Open Scope list_scope.

Variable lookup : pyval -> option Element.

Lemma combine_snoc {X Y : Type} (l : list X) (l' : list Y) (x : X) (y : Y) :
  length l = length l' ->
  combine (l ++ [x]) (l' ++ [y]) = combine l l' ++ [(x, y)].
Proof.
  revert l'. induction l as [| a l IH]; intros [| b l'] H; simpl in *;
    try discriminate; [reflexivity |].
  f_equal. apply IH. lia.
Qed.

(** On parts without an empty component the loop does not raise, and
    appends the hits of the parts in order. *)
Lemma collect_candidates_hits (parts : list (string * string))
    (element_ids mass_isomers : list string) :
  Forall (fun p => fst p <> "" /\ snd p <> "") parts ->
  length element_ids = length mass_isomers ->
  exists ids ms,
    collect_candidates lookup parts element_ids mass_isomers = Ok (ids, ms) /\
    length ids = length ms /\
    combine ids ms
    = combine element_ids mass_isomers ++ flat_map (split_hit lookup) parts.
Proof.
  intros Hparts. revert element_ids mass_isomers.
  induction Hparts as [| [p1 p2] parts [H1 H2] _ IH];
    intros element_ids mass_isomers Hlen.
  - exists element_ids, mass_isomers. simpl. now rewrite app_nil_r.
  - destruct p1 as [| c1 r1]; [contradiction |].
    destruct p2 as [| c2 r2]; [contradiction |].
    cbn [collect_candidates PyStr.index0 mbind result_bind flat_map split_hit
         starts_with].
    assert (forall x y,
              exists ids ms,
                collect_candidates lookup parts (element_ids ++ [x])
                  (mass_isomers ++ [y]) = Ok (ids, ms) /\
                length ids = length ms /\
                combine ids ms
                = combine element_ids mass_isomers ++
                  ([(x, y)] ++ flat_map (split_hit lookup) parts)) as Hadd.
    { intros x y.
      destruct (IH (element_ids ++ [x]) (mass_isomers ++ [y]))
        as (ids & ms & E & Hl & Hc).
      - rewrite !length_app. simpl. lia.
      - exists ids, ms. repeat split; try assumption.
        rewrite Hc, combine_snoc by exact Hlen. now rewrite <- app_assoc. }
    destruct (PyStr.is_digit c1); cbn [mbind result_bind PyStr.index0 andb].
    + destruct (PyStr.is_alpha c2).
      * destruct (lookup (PStr (String c2 r2))); [apply Hadd | apply IH, Hlen].
      * destruct (PyStr.is_alpha c1);
          cbn [mbind result_bind PyStr.index0 andb].
        -- destruct (PyStr.is_digit c2);
             [destruct (lookup (PStr (String c1 r1))) |];
             [apply Hadd | apply IH, Hlen | apply IH, Hlen].
        -- apply IH, Hlen.
    + destruct (PyStr.is_alpha c1); cbn [mbind result_bind PyStr.index0 andb].
      * destruct (PyStr.is_digit c2);
          [destruct (lookup (PStr (String c1 r1))) |];
          [apply Hadd | apply IH, Hlen | apply IH, Hlen].
      * apply IH, Hlen.
Qed.

Lemma combine_map_same {X Y W : Type} (f : W -> X) (g : W -> Y) (l : list W) :
  combine (map f l) (map g l) = map (fun x => (f x, g x)) l.
Proof. induction l as [| a l IH]; simpl; [reflexivity | now rewrite IH]. Qed.

Lemma length_append (a b : string) :
  String.length (a +:+ b) = (String.length a + String.length b)%nat.
Proof. induction a as [| c a IH]; simpl; [reflexivity | now rewrite IH]. Qed.

Lemma slice_to_append (a b : string) : PyStr.slice_to (String.length a) (a +:+ b) = a.
Proof. induction a as [| c a IH]; simpl; [now destruct b | now rewrite IH]. Qed.

Lemma slice_from_append (a b : string) :
  PyStr.slice_from (String.length a) (a +:+ b) = b.
Proof. induction a as [| c a IH]; simpl; [reflexivity | exact IH]. Qed.

Lemma slice_from_nonempty (j : nat) (s : string) :
  (j < String.length s)%nat -> PyStr.slice_from j s <> "".
Proof.
  revert s. induction j as [| j IH]; intros [| c s] H; simpl in *;
    try lia; [discriminate | apply IH; lia].
Qed.

Lemma slice_to_nonempty (j : nat) (s : string) :
  (1 <= j)%nat -> (1 <= String.length s)%nat -> PyStr.slice_to j s <> "".
Proof. intros Hj Hs. destruct j, s; simpl in *; try lia. discriminate. Qed.

Lemma starts_with_nonempty (f : ascii -> bool) (s : string) :
  starts_with f s = true -> (1 <= String.length s)%nat.
Proof. destruct s; simpl; [discriminate | lia]. Qed.

(** The pairs the loop goes through, for a string [arg]. *)
Lemma parts_of (arg : string) :
  let js := seq 1 (String.length arg - 1) in
  combine (map (fun j => PyStr.slice_from j arg) js)
          (map (fun j => PyStr.slice_to j arg) js)
  = map (fun j => (PyStr.slice_from j arg, PyStr.slice_to j arg)) js.
Proof. apply combine_map_same. Qed.

Lemma split_hit_sound (arg e m : string) (j : nat) :
  In (e, m) (split_hit lookup (PyStr.slice_from j arg, PyStr.slice_to j arg)) ->
  exists tok, resolved_split lookup arg tok e m.
Proof.
  pose proof (slice_to_from j arg) as Harg.
  set (p1 := PyStr.slice_from j arg) in *.
  set (p2 := PyStr.slice_to j arg) in *.
  unfold split_hit.
  destruct (starts_with PyStr.is_digit p1 && starts_with PyStr.is_alpha p2)
    eqn:C1.
  - apply andb_prop in C1 as [Hd Ha].
    destruct (lookup (PStr p2)) as [elem |] eqn:Hl; [| intros []].
    intros [[= <- <-] | []]. exists p2. unfold resolved_split. eauto 10.
  - destruct (starts_with PyStr.is_alpha p1 && starts_with PyStr.is_digit p2)
      eqn:C2; [| intros []].
    apply andb_prop in C2 as [Ha Hd].
    destruct (lookup (PStr p1)) as [elem |] eqn:Hl; [| intros []].
    intros [[= <- <-] | []]. exists p1. unfold resolved_split. eauto 10.
Qed.

Lemma split_hit_complete (arg tok e m : string) :
  resolved_split lookup arg tok e m ->
  exists j, In j (seq 1 (String.length arg - 1)) /\
    In (e, m) (split_hit lookup (PyStr.slice_from j arg, PyStr.slice_to j arg)).
Proof.
  intros (Harg & Ha & Hd & elem & Hl & ->).
  pose proof (starts_with_nonempty _ _ Ha) as Hla.
  pose proof (starts_with_nonempty _ _ Hd) as Hld.
  destruct Harg as [-> | ->].
  - exists (String.length tok). split.
    + apply in_seq. rewrite length_append. lia.
    + rewrite slice_from_append, slice_to_append. unfold split_hit.
      rewrite Hd, Ha, Hl. now left.
  - exists (String.length m). split.
    + apply in_seq. rewrite length_append. lia.
    + rewrite slice_from_append, slice_to_append. unfold split_hit.
      assert (starts_with PyStr.is_digit tok = false) as ->.
      { destruct tok as [| c r]; [reflexivity |]. simpl in *.
        now apply is_alpha_not_digit. }
      rewrite Ha, Hd, Hl. now left.
Qed.

(** X5. On a hyphen-free string the split either succeeds or raises one of
    two [IsotopeError]s; the loop never raises [IndexError].  When it
    succeeds, it returns the symbol of an element that one side of the
    string resolves to and the other side, which starts with a digit, as the
    mass part; no other resolving split of the string has a longer symbol;
    and the symbol itself resolves.  (When every resolved symbol is empty the
    result is the pair of empty strings.)  It raises "could not find
    element" exactly when no split of the string resolves, and "invalid"
    when some split resolves and the symbol chosen does not resolve. *)
Theorem split_unhyphenated_result (arg : string) :
  PyStr.contains "-" arg = false ->
  match _split_element_mass lookup arg with
  | Ok (e, m) =>
      ((e, m) = ("", "") \/ exists tok, resolved_split lookup arg tok e m) /\
      is_Some (lookup (PStr e)) /\
      forall tok' e' m',
        resolved_split lookup arg tok' e' m' ->
        (String.length e' <= String.length e)%nat
  | Raise exn =>
      (exn = IsotopeError "Could not find element for isotope" /\
       forall tok e m, ~ resolved_split lookup arg tok e m) \/
      (exn = IsotopeError "Element name or symbol is invalid" /\
       exists tok e m, resolved_split lookup arg tok e m)
  end.
Proof.
  intros Hs. unfold _split_element_mass, split_unhyphenated. rewrite Hs.
  cbv zeta. rewrite parts_of.
  set (js := seq 1 (String.length arg - 1)).
  set (parts := map (fun j => (PyStr.slice_from j arg, PyStr.slice_to j arg)) js).
  destruct (collect_candidates_hits parts [] []) as (ids & ms & E & Hlen & Hc);
    [| reflexivity |].
  { apply List.Forall_forall. intros p Hp. apply in_map_iff in Hp as (j & <- & Hj).
    apply in_seq in Hj. simpl. split.
    - apply slice_from_nonempty. lia.
    - apply slice_to_nonempty; lia. }
  rewrite E. cbn [mbind result_bind]. simpl in Hc.
  assert (forall e m, In (e, m) (combine ids ms) ->
                      exists tok, resolved_split lookup arg tok e m) as Hsound.
  { intros e m Hin. rewrite Hc in Hin.
    apply in_flat_map in Hin as (p & Hp & Hhit).
    apply in_map_iff in Hp as (j & <- & _).
    eapply split_hit_sound. exact Hhit. }
  assert (forall tok e m, resolved_split lookup arg tok e m ->
                          In (e, m) (combine ids ms)) as Hcomplete.
  { intros tok e m Hres.
    destruct (split_hit_complete _ _ _ _ Hres) as (j & Hj & Hhit).
    rewrite Hc. apply in_flat_map.
    exists (PyStr.slice_from j arg, PyStr.slice_to j arg). split; [| exact Hhit].
    apply in_map_iff. eauto. }
  destruct (length ids =? 0)%nat eqn:Hz; cbn [mbind result_bind].
  - left. split; [reflexivity |]. intros tok e m Hres.
    apply Nat.eqb_eq, length_zero_iff_nil in Hz. subst ids.
    exact (Hcomplete _ _ _ Hres).
  - destruct (choose_longest_spec (combine ids ms) "" "") as (Hin & _ & Hmax).
    destruct (choose_longest (combine ids ms) "" "") as [e0 m0].
    destruct (lookup (PStr e0)) eqn:Hl.
    + split; [| split].
      * destruct Hin as [Hin | Hin]; [right | now left].
        now apply Hsound.
      * rewrite Hl. eauto.
      * intros tok' e' m' Hres. apply (Hmax e' m'). eapply Hcomplete, Hres.
    + right. split; [reflexivity |].
      destruct ids as [| i ids]; [discriminate |].
      destruct ms as [| m1 ms]; [discriminate |].
      destruct (Hsound i m1) as [tok Htok]; [now left | eauto].
Qed.

End SplitUnhyphenated.

(** ** Decimal numerals *)

Lemma pretty_Zpos (p : positive) :
  pretty (Z.pos p) = pretty_N_go (N.pos p) "".
Proof. reflexivity. Qed.

Lemma pretty_N_char_digit (r : N) :
  (r < 10)%N ->
  PyStr.is_digit (pretty_N_char r) = true /\
  Z.of_nat (nat_of_ascii (pretty_N_char r) - 48) = Z.of_N r.
Proof.
  intros H.
  assert (r = 0 \/ r = 1 \/ r = 2 \/ r = 3 \/ r = 4 \/ r = 5 \/ r = 6 \/
          r = 7 \/ r = 8 \/ r = 9)%N as Hr by lia.
  repeat (destruct Hr as [-> | Hr]; [split; reflexivity |]).
  subst r. split; reflexivity.
Qed.

Lemma pretty_N_char_decimal (r : N) :
  (r < 10)%N -> PyStr.is_decimal (pretty_N_char r) = true.
Proof.
  intros H.
  assert (r = 0 \/ r = 1 \/ r = 2 \/ r = 3 \/ r = 4 \/ r = 5 \/ r = 6 \/
          r = 7 \/ r = 8 \/ r = 9)%N as Hr by lia.
  repeat (destruct Hr as [-> | Hr]; [reflexivity |]).
  subst r. reflexivity.
Qed.

(** Reading the numeral of [x] put before [s] continues on [s] with the
    accumulator shifted by the digits of [x]. *)
Lemma digits_value_pretty_N_go (x : N) :
  exists k : Z, (0 <= k)%Z /\
    forall (s : string) (seen : bool) (acc : Z),
      PyStr.digits_value seen acc (pretty_N_go x s)
      = PyStr.digits_value (seen || (0 <? x)%N) (acc * 10 ^ k + Z.of_N x) s.
Proof.
  induction (N.lt_wf_0 x) as [x _ IH].
  destruct (N.eq_dec x 0%N) as [-> | Hx].
  - exists 0%Z. split; [lia |]. intros s seen acc.
    rewrite pretty_N_go_0, orb_false_r. f_equal. lia.
  - assert (0 < x)%N as Hpos by lia.
    destruct (IH (x `div` 10)%N) as (k & Hk & E).
    { apply N.div_lt; lia. }
    exists (k + 1)%Z. split; [lia |]. intros s seen acc.
    rewrite pretty_N_go_step by exact Hpos. rewrite E.
    destruct (pretty_N_char_digit (x `mod` 10)%N) as [_ Hv].
    { apply N.mod_lt. lia. }
    pose proof (pretty_N_char_decimal (x `mod` 10)%N
                  ltac:(apply N.mod_lt; lia)) as Hd.
    cbn [PyStr.digits_value]. rewrite Hd, Hv.
    assert ((0 <? x)%N = true) as -> by (apply N.ltb_lt; exact Hpos).
    rewrite orb_true_r. f_equal.
    rewrite Z.pow_add_r by lia.
    pose proof (N.div_mod x 10 ltac:(lia)) as Hdm.
    assert (Z.of_N x = 10 * Z.of_N (x `div` 10) + Z.of_N (x `mod` 10))%Z
      by lia.
    lia.
Qed.

Lemma all_digits_pretty_N_go (x : N) (s : string) :
  PyStr.all_chars PyStr.is_digit (pretty_N_go x s)
  = PyStr.all_chars PyStr.is_digit s.
Proof.
  revert s. induction (N.lt_wf_0 x) as [x _ IH]. intros s.
  destruct (N.eq_dec x 0%N) as [-> | Hx]; [now rewrite pretty_N_go_0 |].
  rewrite pretty_N_go_step by lia. rewrite IH by (apply N.div_lt; lia).
  cbn [PyStr.all_chars].
  destruct (pretty_N_char_digit (x `mod` 10)%N) as [-> _];
    [apply N.mod_lt; lia | reflexivity].
Qed.

Lemma nonempty_pretty_N_go (x : N) (s : string) :
  (0 < x)%N -> PyStr.nonempty (pretty_N_go x s) = true.
Proof.
  revert s. induction (N.lt_wf_0 x) as [x _ IH]. intros s Hpos.
  rewrite pretty_N_go_step by exact Hpos.
  destruct (N.eq_dec (x `div` 10)%N 0%N) as [-> | Hx];
    [now rewrite pretty_N_go_0 |].
  apply IH; [apply N.div_lt; lia | apply N.neq_0_lt_0, Hx].
Qed.

(** The numeral of a non-negative integer is a string of digits. *)
Lemma isdigit_pretty (z : Z) : (0 <= z)%Z -> PyStr.isdigit (pretty z) = true.
Proof.
  destruct z as [| p | p]; [reflexivity | | lia]. intros _.
  rewrite pretty_Zpos. unfold PyStr.isdigit.
  rewrite nonempty_pretty_N_go by lia. now rewrite all_digits_pretty_N_go.
Qed.

(** On a string of digits [int()] is the value of the digits. *)
Lemma int_of_str_digits (s : string) :
  PyStr.isdigit s = true ->
  PyStr.int_of_str s = PyStr.digits_value false 0 s.
Proof.
  destruct s as [| c s]; [discriminate |].
  unfold PyStr.isdigit. cbn [PyStr.nonempty PyStr.all_chars andb].
  intros Hd. apply andb_prop in Hd as [Hc _].
  destruct c as [[] [] [] [] [] [] [] []]; try discriminate Hc; reflexivity.
Qed.

(** [int(str(z)) = z] for a non-negative [z]. *)
Lemma int_of_str_pretty (z : Z) :
  (0 <= z)%Z -> PyStr.int_of_str (pretty z) = Some z.
Proof.
  intros Hz. rewrite int_of_str_digits by (apply isdigit_pretty; exact Hz).
  destruct z as [| p | p]; [reflexivity | | lia].
  rewrite pretty_Zpos.
  destruct (digits_value_pretty_N_go (N.pos p)) as (k & _ & E).
  rewrite E. cbn. f_equal.
Qed.

(** ** Formatting and parsing back *)

Lemma append_assoc_s (a b c : string) : (a +:+ b) +:+ c = a +:+ b +:+ c.
Proof.
  induction a as [| d a IH]; [reflexivity |].
  change (String d ((a +:+ b) +:+ c) = String d (a +:+ b +:+ c)).
  f_equal. exact IH.
Qed.

Lemma append_nil_r_s (a : string) : a +:+ "" = a.
Proof.
  induction a as [| d a IH]; [reflexivity |].
  change (String d (a +:+ "") = String d a). f_equal. exact IH.
Qed.

Lemma all_chars_app (f : ascii -> bool) (a b : string) :
  PyStr.all_chars f (a +:+ b) = PyStr.all_chars f a && PyStr.all_chars f b.
Proof.
  induction a as [| d a IH]; [reflexivity |].
  change (f d && PyStr.all_chars f (a +:+ b)
          = f d && PyStr.all_chars f a && PyStr.all_chars f b).
  rewrite IH. now rewrite andb_assoc.
Qed.

(** An occurrence of [old] cannot start inside a prefix that does not
    contain the first character of [old]. *)
Lemma replace_go_skip_prefix (c0 : ascii) (old' new a b : string) :
  PyStr.contains c0 a = false ->
  PyStr.replace_go (String c0 old') new 0 (a +:+ b)
  = a +:+ PyStr.replace_go (String c0 old') new 0 b.
Proof.
  induction a as [| d a IH]; [reflexivity |].
  cbn [PyStr.contains]. intros H. apply orb_false_elim in H as [Hd Ha].
  change (String d a +:+ b) with (String d (a +:+ b)).
  cbn [PyStr.replace_go String.prefix].
  destruct (ascii_dec c0 d) as [-> | _].
  - rewrite Ascii.eqb_refl in Hd. discriminate.
  - rewrite (IH Ha). reflexivity.
Qed.

Lemma is_alpha_not_percent (s : string) :
  PyStr.all_chars PyStr.is_alpha s = true -> PyStr.contains "%" s = false.
Proof. apply contains_all_chars. reflexivity. Qed.

(** [str(iso)] is the symbol, a hyphen, the mass number and the isomer
    code. *)
Lemma str_default (iso : Isotope.t) :
  PyStr.all_chars PyStr.is_alpha (symbol (Isotope.element iso)) = true ->
  (0 <= Isotope.A iso)%Z ->
  Isotope.__str__ iso
  = symbol (Isotope.element iso) +:+ "-" +:+ pretty (Isotope.A iso)
    +:+ Isotope.m iso.
Proof.
  intros Hsym HA. unfold Isotope.__str__, Isotope.__format__.
  set (sym := symbol (Isotope.element iso)) in *.
  set (pA := pretty (Isotope.A iso)).
  pose proof (is_alpha_not_percent sym Hsym) as Hp.
  cbn [String.length Nat.eqb].
  change (PyStr.replace "%s" sym "%s-%a%m") with (sym +:+ "-%a%m").
  unfold PyStr.replace.
  rewrite (replace_go_skip_prefix "%" "n" _ sym "-%a%m" Hp).
  change (PyStr.replace_go "%n" (name (Isotope.element iso)) 0 "-%a%m")
    with "-%a%m".
  rewrite (replace_go_skip_prefix "%" "z" _ sym "-%a%m" Hp).
  change (PyStr.replace_go "%z" (pretty (atomic_Z (Isotope.element iso))) 0
            "-%a%m") with "-%a%m".
  rewrite (replace_go_skip_prefix "%" "a" _ sym "-%a%m" Hp).
  change (PyStr.replace_go "%a" pA 0 "-%a%m") with ("-" +:+ pA +:+ "%m").
  replace (sym +:+ "-" +:+ pA +:+ "%m") with ((sym +:+ "-" +:+ pA) +:+ "%m")
    by (now rewrite !append_assoc_s).
  rewrite (replace_go_skip_prefix "%" "m" _ (sym +:+ "-" +:+ pA) "%m").
  - change (PyStr.replace_go "%m" (Isotope.m iso) 0 "%m")
      with (Isotope.m iso +:+ "").
    now rewrite append_nil_r_s, !append_assoc_s.
  - rewrite !contains_app, Hp.
    change (PyStr.contains "%" "-") with false.
    unfold pA. pose proof (isdigit_pretty _ HA) as Hd.
    unfold PyStr.isdigit in Hd. apply andb_prop in Hd as [_ Hd].
    now rewrite (contains_all_chars PyStr.is_digit "%" _ eq_refl Hd).
Qed.

Lemma lower_app (a b : string) :
  PyStr.lower (a +:+ b) = PyStr.lower a +:+ PyStr.lower b.
Proof.
  induction a as [| d a IH]; [reflexivity |].
  change (String (PyStr.lower_char d) (PyStr.lower (a +:+ b))
          = String (PyStr.lower_char d) (PyStr.lower a +:+ PyStr.lower b)).
  f_equal. exact IH.
Qed.

Lemma lower_char_digit (c : ascii) :
  PyStr.is_digit c = true -> PyStr.lower_char c = c.
Proof.
  destruct c as [[] [] [] [] [] [] [] []]; intros H;
    try discriminate H; reflexivity.
Qed.

Lemma lower_digits (s : string) :
  PyStr.all_chars PyStr.is_digit s = true -> PyStr.lower s = s.
Proof.
  induction s as [| c s IH]; [reflexivity |].
  cbn [PyStr.all_chars PyStr.lower]. intros H.
  apply andb_prop in H as [Hc Hs].
  now rewrite (lower_char_digit c Hc), (IH Hs).
Qed.

Lemma isdigit_all (s : string) :
  PyStr.isdigit s = true ->
  PyStr.all_chars PyStr.is_digit s = true /\ (0 <? String.length s)%nat = true.
Proof.
  unfold PyStr.isdigit. intros H. apply andb_prop in H as [Hn Ha].
  split; [exact Ha |]. destruct s; [discriminate | reflexivity].
Qed.

(** The mass part [digits m digits] splits into the value of the first
    digits and the isomer string. *)
Lemma split_mass_isomer_m (pA t : string) (aa : Z) :
  PyStr.isdigit pA = true ->
  PyStr.int_of_str pA = Some aa ->
  t = "" \/ PyStr.isdigit t = true ->
  _split_mass_isomer (pA +:+ String "m" t) = Ok (aa, String "m" t).
Proof.
  intros HpA Hint Ht.
  destruct (isdigit_all pA HpA) as [HdA _].
  assert (PyStr.lower t = t /\ PyStr.contains "m" t = false)
    as (Hlow & Hnom).
  { destruct Ht as [-> | Ht]; [split; reflexivity |].
    destruct (isdigit_all t Ht) as [Hd _]. split.
    - now apply lower_digits.
    - now apply (contains_all_chars PyStr.is_digit). }
  unfold _split_mass_isomer.
  rewrite lower_app, (lower_digits pA HdA).
  change (PyStr.lower (String "m" t)) with (String "m" (PyStr.lower t)).
  rewrite Hlow, contains_app.
  change (PyStr.contains "m" (String "m" t)) with true. rewrite orb_true_r.
  rewrite split_at_sep
    by (now apply (contains_all_chars PyStr.is_digit)).
  rewrite (split_without_sep "m" t Hnom), Hint.
  destruct Ht as [-> | Ht]; [reflexivity |].
  destruct (isdigit_all t Ht) as [_ Hlen]. rewrite Hlen, Ht. reflexivity.
Qed.

Lemma split_mass_isomer_formatted (a M : Z) :
  (0 <= a)%Z -> (0 <= M)%Z ->
  _split_mass_isomer (pretty a +:+ isomer_code M) = Ok (a, isomer_code M).
Proof.
  intros Ha HM. pose proof (isdigit_pretty a Ha) as HdA.
  pose proof (int_of_str_pretty a Ha) as Hint.
  unfold isomer_code.
  destruct (M =? 0)%Z; [| destruct (M =? 1)%Z].
  - rewrite append_nil_r_s. unfold _split_mass_isomer.
    destruct (isdigit_all _ HdA) as [Hall _].
    rewrite (lower_digits _ Hall).
    rewrite (contains_all_chars PyStr.is_digit "m" _ eq_refl Hall).
    now rewrite Hint.
  - apply split_mass_isomer_m; auto.
  - apply split_mass_isomer_m; auto. right. now apply isdigit_pretty.
Qed.

(** [_init_m] takes the isomer code of a level back to the level. *)
Lemma init_m_code (M : Z) :
  (0 <= M)%Z ->
  Isotope._init_m (PStr (isomer_code M)) = Ok (isomer_code M, M).
Proof.
  intros HM. unfold isomer_code.
  destruct (M =? 0)%Z eqn:H0; [apply Z.eqb_eq in H0; now subst |].
  destruct (M =? 1)%Z eqn:H1; [apply Z.eqb_eq in H1; now subst |].
  pose proof (isdigit_pretty M HM) as Hd.
  destruct (isdigit_all _ Hd) as [Hall Hlen].
  unfold Isotope._init_m.
  change (PyStr.lower ("m" +:+ pretty M)) with (String "m" (PyStr.lower (pretty M))).
  rewrite (lower_digits _ Hall).
  change ("m" +:+ pretty M) with (String "m" (pretty M)).
  cbn [PyStr.index0 mbind result_bind Ascii.eqb Bool.eqb negb String.length
       PyStr.slice_from].
  assert ((1 <? S (String.length (pretty M)))%nat = true) as ->.
  { apply Nat.ltb_lt. apply Nat.ltb_lt in Hlen. lia. }
  rewrite Hd. cbn [negb Isotope.int_of].
  rewrite (int_of_str_pretty M HM). reflexivity.
Qed.

Lemma isomer_code_no_hyphen (M : Z) :
  (0 <= M)%Z -> PyStr.contains "-" (isomer_code M) = false.
Proof.
  intros HM. unfold isomer_code.
  destruct (M =? 0)%Z; [reflexivity |]. destruct (M =? 1)%Z; [reflexivity |].
  change (PyStr.contains "-" ("m" +:+ pretty M))
    with (PyStr.contains "-" (pretty M)).
  destruct (isdigit_all _ (isdigit_pretty M HM)) as [Hall _].
  now apply (contains_all_chars PyStr.is_digit).
Qed.

Section RoundTrip.

Variable lookup : pyval -> option Element.

Lemma split_element_mass_hyphenated (sym rest : string) (e : Element) :
  PyStr.isalpha sym = true ->
  lookup (PStr sym) = Some e ->
  PyStr.contains "-" rest = false ->
  starts_with PyStr.is_digit rest = true ->
  _split_element_mass lookup (sym +:+ "-" +:+ rest) = Ok (sym, rest).
Proof.
  intros Hsym Hl Hrest Hd.
  assert (PyStr.contains "-" sym = false) as Hs.
  { unfold PyStr.isalpha in Hsym. apply andb_prop in Hsym as [_ Hall].
    now apply (contains_all_chars PyStr.is_alpha). }
  change (sym +:+ "-" +:+ rest) with (sym +:+ String "-" rest).
  unfold _split_element_mass. rewrite contains_app.
  change (PyStr.contains "-" (String "-" rest)) with true. rewrite orb_true_r.
  rewrite (split_at_sep "-" sym rest Hs), (split_without_sep "-" rest Hrest).
  unfold split_hyphenated. rewrite Hsym.
  destruct rest as [| c r]; [discriminate |]. cbn [starts_with] in Hd.
  cbn [PyStr.index0 mbind result_bind]. rewrite Hd.
  cbn [mbind result_bind]. rewrite Hl. reflexivity.
Qed.

Lemma starts_with_digit_app (a b : string) :
  PyStr.isdigit a = true -> starts_with PyStr.is_digit (a +:+ b) = true.
Proof.
  destruct a as [| c a]; [discriminate |]. unfold PyStr.isdigit.
  cbn [PyStr.nonempty PyStr.all_chars andb]. intros H.
  apply andb_prop in H as [Hc _]. exact Hc.
Qed.

(** X8. Parsing [str(iso)] gives the isotope back: for an isotope whose
    symbol is alphabetic and resolves to its element, whose [N] is
    [A - Z >= 0] with [A >= 1], and whose [m] is the code of its level
    [M >= 0], [parse_isotope] returns symbol, [A] and [m], and the
    constructor on the string returns the isotope. *)
Theorem Isotope_str_round_trip (iso : Isotope.t) :
  PyStr.isalpha (symbol (Isotope.element iso)) = true ->
  lookup (PStr (symbol (Isotope.element iso))) = Some (Isotope.element iso) ->
  (1 <= Isotope.A iso)%Z ->
  Isotope.N iso = (Isotope.A iso - atomic_Z (Isotope.element iso))%Z ->
  (0 <= Isotope.N iso)%Z ->
  (0 <= Isotope.M iso)%Z ->
  Isotope.m iso = isomer_code (Isotope.M iso) ->
  parse_isotope lookup (Isotope.__str__ iso)
  = Ok (symbol (Isotope.element iso), Isotope.A iso, Isotope.m iso) /\
  Isotope.__init__ lookup [PStr (Isotope.__str__ iso)] = Ok iso.
Proof.
  intros Hsym Hl HA HN HN0 HM Hm.
  assert (PyStr.all_chars PyStr.is_alpha (symbol (Isotope.element iso)) = true)
    as Hall.
  { unfold PyStr.isalpha in Hsym. now apply andb_prop in Hsym as [_ ?]. }
  assert (parse_isotope lookup (Isotope.__str__ iso)
          = Ok (symbol (Isotope.element iso), Isotope.A iso, Isotope.m iso))
    as Hparse.
  { rewrite str_default by (try assumption; lia).
    unfold parse_isotope.
    rewrite (split_element_mass_hyphenated _ _ _ Hsym Hl).
    - cbn [mbind result_bind]. rewrite Hm.
      rewrite split_mass_isomer_formatted by lia. reflexivity.
    - rewrite contains_app, Hm, (isomer_code_no_hyphen _ HM), orb_false_r.
      destruct (isdigit_all _ (isdigit_pretty (Isotope.A iso) ltac:(lia)))
        as [Hd _].
      now apply (contains_all_chars PyStr.is_digit).
    - apply starts_with_digit_app, isdigit_pretty. lia. }
  split; [exact Hparse |].
  unfold Isotope.__init__. rewrite Hparse. cbn [mbind result_bind].
  unfold element_Element. rewrite Hl. cbn [mbind result_bind].
  unfold Isotope._init_A. cbn [Isotope.int_of mbind result_bind].
  assert ((Isotope.A iso <? 1)%Z = false) as -> by (apply Z.ltb_ge; lia).
  cbn [mbind result_bind]. rewrite Hm, (init_m_code _ HM).
  cbn [mbind result_bind]. unfold Isotope.finish.
  rewrite <- HN.
  assert ((Isotope.N iso <? 0)%Z = false) as -> by (apply Z.ltb_ge; lia).
  cbn [fst snd]. rewrite <- Hm. destruct iso; reflexivity.
Qed.

Lemma isalpha_starts_with_digit (s : string) :
  starts_with PyStr.is_digit s = true -> PyStr.isalpha s = false.
Proof.
  destruct s as [| c r]; [discriminate |]. cbn [starts_with]. intros Hc.
  unfold PyStr.isalpha. cbn [PyStr.nonempty PyStr.all_chars andb].
  now rewrite (is_digit_not_alpha c Hc).
Qed.

(** X6. A hyphenated string is split at the hyphen in either order, element
    first or mass first, and the element token is returned as it is
    written, not as the symbol it resolves to. *)
Theorem split_hyphenated_as_written (sym rest : string) (e : Element) :
  PyStr.isalpha sym = true ->
  lookup (PStr sym) = Some e ->
  PyStr.contains "-" rest = false ->
  starts_with PyStr.is_digit rest = true ->
  _split_element_mass lookup (sym +:+ "-" +:+ rest) = Ok (sym, rest) /\
  _split_element_mass lookup (rest +:+ "-" +:+ sym) = Ok (sym, rest).
Proof.
  intros Hsym Hl Hrest Hd. split.
  - now apply (split_element_mass_hyphenated sym rest e).
  - assert (PyStr.contains "-" sym = false) as Hs.
    { unfold PyStr.isalpha in Hsym. apply andb_prop in Hsym as [_ Hall].
      now apply (contains_all_chars PyStr.is_alpha). }
    change (rest +:+ "-" +:+ sym) with (rest +:+ String "-" sym).
    unfold _split_element_mass. rewrite contains_app.
    change (PyStr.contains "-" (String "-" sym)) with true. rewrite orb_true_r.
    rewrite (split_at_sep "-" rest sym Hrest), (split_without_sep "-" sym Hs).
    unfold split_hyphenated.
    rewrite (isalpha_starts_with_digit rest Hd).
    destruct rest as [| c r]; [discriminate |]. cbn [starts_with] in Hd.
    cbn [PyStr.index0 mbind result_bind]. rewrite Hd, Hsym.
    cbn [andb mbind result_bind]. rewrite Hl. reflexivity.
Qed.

End RoundTrip.

(** ** The mass/isomer split and the constructor *)

Lemma digits_value_total (s : string) (seen : bool) (acc : Z) :
  PyStr.all_chars PyStr.is_decimal s = true ->
  seen = true \/ s <> "" ->
  exists z, PyStr.digits_value seen acc s = Some z.
Proof.
  revert seen acc. induction s as [| c s IH]; intros seen acc Hall Hne.
  - destruct Hne as [-> | Hne]; [simpl; eauto | contradiction].
  - cbn [PyStr.all_chars] in Hall. apply andb_prop in Hall as [Hc Hs].
    cbn [PyStr.digits_value]. rewrite Hc. apply IH; [exact Hs | now left].
Qed.

Lemma ascii_digit_decimal (c : ascii) :
  PyStr.is_ascii c = true -> PyStr.is_digit c = true ->
  PyStr.is_decimal c = true.
Proof.
  destruct c as [[] [] [] [] [] [] [] []]; intros Ha Hd;
    try reflexivity; try discriminate Ha; discriminate Hd.
Qed.

Lemma ascii_digits_decimal (s : string) :
  PyStr.all_chars PyStr.is_ascii s = true ->
  PyStr.all_chars PyStr.is_digit s = true ->
  PyStr.all_chars PyStr.is_decimal s = true.
Proof.
  induction s as [| c s IH]; [reflexivity |]. cbn [PyStr.all_chars].
  intros Ha Hd. apply andb_prop in Ha as [Hac Has].
  apply andb_prop in Hd as [Hdc Hds].
  now rewrite (ascii_digit_decimal c Hac Hdc), (IH Has Hds).
Qed.

Lemma int_of_str_total (s : string) :
  PyStr.isdigit s = true -> PyStr.all_chars PyStr.is_ascii s = true ->
  exists z, PyStr.int_of_str s = Some z /\ (0 <= z)%Z.
Proof.
  intros Hd Ha. destruct (isdigit_all s Hd) as [Hall Hlen].
  rewrite (int_of_str_digits s Hd).
  destruct (digits_value_total s false 0 (ascii_digits_decimal s Ha Hall))
    as [z Hz].
  - right. intros ->. discriminate.
  - exists z. split; [exact Hz |].
    eapply digits_value_nonneg; [| exact Hz]. lia.
Qed.

Lemma lower_char_ascii (c : ascii) :
  PyStr.is_ascii c = true -> PyStr.is_ascii (PyStr.lower_char c) = true.
Proof.
  destruct c as [[] [] [] [] [] [] [] []]; intros H;
    try reflexivity; discriminate H.
Qed.

Lemma lower_all_ascii (s : string) :
  PyStr.all_chars PyStr.is_ascii s = true ->
  PyStr.all_chars PyStr.is_ascii (PyStr.lower s) = true.
Proof.
  induction s as [| c s IH]; [reflexivity |].
  cbn [PyStr.all_chars PyStr.lower]. intros H.
  apply andb_prop in H as [Hc Hs].
  now rewrite (lower_char_ascii c Hc), (IH Hs).
Qed.

Lemma split_all_chars (f : ascii -> bool) (c : ascii) (s : string) :
  PyStr.all_chars f s = true ->
  List.Forall (fun t => PyStr.all_chars f t = true) (PyStr.split c s).
Proof.
  induction s as [| d s IH]; intros H.
  - repeat constructor.
  - cbn [PyStr.all_chars] in H. apply andb_prop in H as [Hd Hs].
    specialize (IH Hs). cbn [PyStr.split].
    destruct (Ascii.eqb c d); [constructor; [reflexivity | exact IH] |].
    destruct (PyStr.split c s) as [| t ts].
    + repeat constructor. cbn [PyStr.all_chars]. now rewrite Hd.
    + inversion IH as [| ? ? Ht Hts]; subst. constructor; [| exact Hts].
      cbn [PyStr.all_chars]. now rewrite Hd, Ht.
Qed.

(** X7. For a string of ASCII characters, whatever isomer string
    [_split_mass_isomer] returns, [_init_m] accepts it and keeps it as
    [m], with a level [M >= 0]. *)
Theorem split_mass_isomer_accepted (arg : string) (aa : Z) (mm : string) :
  PyStr.all_chars PyStr.is_ascii arg = true ->
  _split_mass_isomer arg = Ok (aa, mm) ->
  exists M : Z, Isotope._init_m (PStr mm) = Ok (mm, M) /\ (0 <= M)%Z.
Proof.
  intros Hascii. unfold _split_mass_isomer.
  pose proof (split_all_chars PyStr.is_ascii "m" _ (lower_all_ascii arg Hascii))
    as Htok.
  destruct (PyStr.contains "m" (PyStr.lower arg)).
  - destruct (PyStr.split "m" (PyStr.lower arg)) as [| t0 [| t1 [| t2 ts]]];
      try discriminate.
    inversion Htok as [| ? ? _ Htok1]; subst.
    inversion Htok1 as [| ? ? Ha1 _]; subst.
    destruct (PyStr.int_of_str t0); [| discriminate].
    destruct (0 <? String.length t1)%nat eqn:Hlen.
    + destruct (PyStr.isdigit t1) eqn:Hd; [| discriminate].
      cbn [negb]. intros [= <- <-].
      destruct (isdigit_all t1 Hd) as [Hall _].
      destruct (int_of_str_total t1 Hd Ha1) as (M & HM & HM0).
      exists M. split; [| exact HM0].
      unfold Isotope._init_m.
      change (PyStr.lower ("m" +:+ t1)) with (String "m" (PyStr.lower t1)).
      rewrite (lower_digits t1 Hall).
      change ("m" +:+ t1) with (String "m" t1).
      cbn [PyStr.index0 mbind result_bind Ascii.eqb Bool.eqb negb String.length
           PyStr.slice_from].
      assert ((1 <? S (String.length t1))%nat = true) as ->.
      { apply Nat.ltb_lt. apply Nat.ltb_lt in Hlen. lia. }
      rewrite Hd. cbn [negb Isotope.int_of]. rewrite HM. reflexivity.
    + intros [= <- <-]. exists 1%Z. split; [reflexivity | lia].
  - destruct (PyStr.int_of_str arg); [| discriminate].
    intros [= <- <-]. exists 0%Z. split; [reflexivity | lia].
Qed.

(** Outside ASCII the two disagree: a superscript two (code point 178)
    passes [isdigit] in [_split_mass_isomer], and [int] then fails in
    [_init_m] with a [ValueError] that is not caught. *)
Example superscript_isomer_level :
  let sup2 := String (ascii_of_nat 178) "" in
  _split_mass_isomer ("99m" +:+ sup2) = Ok (99%Z, "m" +:+ sup2) /\
  Isotope._init_m (PStr ("m" +:+ sup2)) = Raise ValueError.
Proof. vm_compute. split; reflexivity. Qed.

(** ** Decay over time *)

Section DecayOverTime.

Import IsotopeQuantity.

Variable parse_date : string -> option datetime.

(** [atoms_at] for a finite nonzero halflife and a finite atom count, at a
    date that passes the creation-date guard. *)
Lemma atoms_at_finite (q : IsotopeQuantity.t) (date : date_arg)
    (t1 : datetime) (T n : R) :
  handle_datetime parse_date date = Ok t1 ->
  Rltb (t1 - ref_date q) 0 && creation_date q = false ->
  halflife q = Num T -> T <> 0 -> ref_atoms q = Num n ->
  atoms_at parse_date q date
  = Ok (Num (n * Rpower 2 (- (t1 - ref_date q) / T))).
Proof.
  intros Hd Hg HT HT0 Hn. rewrite (atoms_at_unfold parse_date q date t1 Hd Hg).
  rewrite HT, Hn, fdiv_Num by exact HT0. reflexivity.
Qed.

Lemma Rpower_2_le (x y : R) : x <= y -> Rpower 2 x <= Rpower 2 y.
Proof. intros H. apply Rle_Rpower; lra. Qed.

Lemma Rpower_2_pos (x : R) : 0 < Rpower 2 x.
Proof. unfold Rpower. apply exp_pos. Qed.

Lemma decay_exponent_le (T a b : R) : 0 < T -> a <= b -> - b / T <= - a / T.
Proof.
  intros HT Hab. unfold Rdiv. apply Rmult_le_compat_r; [| lra].
  left. now apply Rinv_0_lt_compat.
Qed.

(** X9. For a positive halflife and a non-negative atom count, the number of
    decays between two dates in order, the first not before the reference
    date, is between 0 and the reference atom count. *)
Theorem decays_from_bounds (q : IsotopeQuantity.t)
    (start_time stop_time : date_arg) (t0 t1 : datetime) (T n : R) :
  halflife q = Num T -> 0 < T ->
  ref_atoms q = Num n -> 0 <= n ->
  handle_datetime parse_date start_time = Ok t0 ->
  handle_datetime parse_date stop_time = Ok t1 ->
  ref_date q <= t0 -> t0 <= t1 ->
  exists d : R,
    decays_from parse_date q start_time stop_time = Ok (Num d) /\
    0 <= d <= n.
Proof.
  intros HT HT0 Hn Hn0 H0 H1 Hr Hle.
  unfold decays_from.
  rewrite (atoms_at_finite q start_time t0 T n H0) by
    (try assumption; try lra; apply guard_not_before; lra).
  rewrite (atoms_at_finite q stop_time t1 T n H1) by
    (try assumption; try lra; apply guard_not_before; lra).
  cbn [mbind result_bind fsub fneg fadd]. eexists. split; [reflexivity |].
  set (P0 := Rpower 2 (- (t0 - ref_date q) / T)).
  set (P1 := Rpower 2 (- (t1 - ref_date q) / T)).
  assert (P1 <= P0) as H10.
  { apply Rpower_2_le, decay_exponent_le; lra. }
  assert (P0 <= 1) as H01.
  { rewrite <- Rpower_2_0. apply Rpower_2_le.
    replace 0 with (- 0 / T) by (field; lra).
    apply decay_exponent_le; lra. }
  pose proof (Rpower_2_pos (- (t1 - ref_date q) / T)) as HP1. fold P1 in HP1.
  split; nra.
Qed.

(** X10. Decay composes: the quantity re-created at a later date [t1] with the
    atoms the original has then evaluates, at any date from [t1] on, to
    what the original evaluates to. *)
Theorem atoms_at_reanchored (q : IsotopeQuantity.t) (t1 t2 : datetime)
    (T n : R) (a1 : float) :
  halflife q = Num T -> T <> 0 -> ref_atoms q = Num n ->
  ref_date q <= t1 -> t1 <= t2 ->
  atoms_at parse_date q (DateTime t1) = Ok a1 ->
  atoms_at parse_date
    (mk (isotope q) (halflife q) (decay_const q) t1 (creation_date q) a1)
    (DateTime t2)
  = atoms_at parse_date q (DateTime t2).
Proof.
  intros HT HT0 Hn Hr Hle Ha1.
  rewrite (atoms_at_finite q (DateTime t1) t1 T n eq_refl) in Ha1
    by (try assumption; apply guard_not_before; lra).
  injection Ha1 as <-.
  rewrite (atoms_at_finite q (DateTime t2) t2 T n eq_refl)
    by (try assumption; apply guard_not_before; lra).
  erewrite (atoms_at_finite _ (DateTime t2) t2 T _ eq_refl);
    [| apply guard_not_before; cbn; lra | exact HT | exact HT0 | reflexivity].
  cbn [ref_date]. do 2 f_equal. rewrite Rmult_assoc. f_equal.
  rewrite <- Rpower_plus. f_equal. field. exact HT0.
Qed.

End DecayOverTime.

(** ** Inversion after whole halflives *)




(** ** Construction and evaluation at the reference date *)

Section KeywordRoundTrip.

Import IsotopeQuantity.

Variable Isotope_halflife : Isotope.t -> float.
Variable Isotope_decay_const : Isotope.t -> float.
Variable parse_date : string -> option datetime.
Variable now : datetime.

Lemma atoms_at_ref_date (iso : Isotope.t) (T : R) (lam : float)
    (d : datetime) (cd : bool) (a : R) :
  T <> 0 ->
  atoms_at parse_date (mk iso (Num T) lam d cd (Num a)) (DateTime d)
  = Ok (Num a).
Proof.
  intros HT.
  rewrite (atoms_at_finite parse_date _ (DateTime d) d T a eq_refl);
    [| apply guard_not_before; cbn; lra | reflexivity | exact HT | reflexivity].
  cbn [ref_date]. replace (- (d - d) / T) with 0 by (field; exact HT).
  rewrite Rpower_2_0. do 2 f_equal. lra.
Qed.

Lemma init_from_atoms (iso : Isotope.t) (date : option date_arg) (d : datetime)
    (cd : bool) (kw : kwargs) (a : float) :
  _init_date parse_date now date = Ok d ->
  atoms_from (Isotope.A iso) (Isotope_decay_const iso) kw = Ok a ->
  __init__ Isotope_halflife Isotope_decay_const parse_date now iso date cd kw
  = Ok (mk iso (Isotope_halflife iso) (Isotope_decay_const iso) d cd a).
Proof. intros Hd Ha. unfold __init__. rewrite Hd. cbn. now rewrite Ha. Qed.

Lemma check_nonneg (v : R) : 0 <= v -> _check_positive_qty (Num v) = Ok (Num v).
Proof.
  intros Hv. unfold _check_positive_qty. cbn [flt].
  now rewrite Rltb_false by exact Hv.
Qed.

(** The atoms that each keyword stands for, for a non-negative value, a
    positive decay constant and a mass number of at least 1. *)
Lemma atoms_from_values (iso_A : Z) (lam v : R) :
  0 < lam -> 0 <= v -> (1 <= iso_A)%Z ->
  atoms_from iso_A (Num lam) {[ "atoms" := Num v ]} = Ok (Num v) /\
  atoms_from iso_A (Num lam) {[ "g" := Num v ]}
  = Ok (Num (v / IZR iso_A * N_AV)) /\
  atoms_from iso_A (Num lam) {[ "bq" := Num v ]} = Ok (Num (v / lam)) /\
  atoms_from iso_A (Num lam) {[ "uci" := Num v ]}
  = Ok (Num (v * UCI_TO_BQ / lam)).
Proof.
  intros Hlam Hv HA. unfold atoms_from.
  assert (IZR iso_A <> 0) as HA0.
  { apply IZR_le in HA. lra. }
  assert (flt (Num 0) (Num lam) = true) as Hpos by (apply Rltb_true; exact Hlam).
  repeat split.
  - change ({[ "atoms" := Num v ]} !! "atoms") with (Some (Num v)).
    now apply check_nonneg.
  - change (({[ "g" := Num v ]} : kwargs) !! "atoms") with (@None float).
    change ({[ "g" := Num v ]} !! "g") with (Some (Num v)). cbv beta iota.
    rewrite check_nonneg by exact Hv. cbn [mbind result_bind].
    rewrite fdiv_Num by exact HA0. reflexivity.
  - change (({[ "bq" := Num v ]} : kwargs) !! "atoms") with (@None float).
    change (({[ "bq" := Num v ]} : kwargs) !! "g") with (@None float).
    rewrite Hpos.
    change ({[ "bq" := Num v ]} !! "bq") with (Some (Num v)). cbv beta iota.
    rewrite check_nonneg by exact Hv. cbn [mbind result_bind].
    apply fdiv_Num. lra.
  - change (({[ "uci" := Num v ]} : kwargs) !! "atoms") with (@None float).
    change (({[ "uci" := Num v ]} : kwargs) !! "g") with (@None float).
    rewrite Hpos.
    change (({[ "uci" := Num v ]} : kwargs) !! "bq") with (@None float).
    change ({[ "uci" := Num v ]} !! "uci") with (Some (Num v)). cbv beta iota.
    rewrite check_nonneg by exact Hv. cbn [mbind result_bind fmul].
    apply fdiv_Num. lra.
Qed.

(** X12. A quantity built from a non-negative value in one unit evaluates, at
    its reference date, to that value in that unit: atoms, grams,
    becquerels and microcuries. *)
Theorem keyword_round_trip (iso : Isotope.t) (date : option date_arg)
    (d : datetime) (cd : bool) (T lam v : R) :
  Isotope_halflife iso = Num T -> T <> 0 ->
  Isotope_decay_const iso = Num lam -> 0 < lam ->
  (1 <= Isotope.A iso)%Z ->
  _init_date parse_date now date = Ok d ->
  0 <= v ->
  let init := __init__ Isotope_halflife Isotope_decay_const parse_date now
                iso date cd in
  (exists q, init {[ "atoms" := Num v ]} = Ok q /\
             atoms_at parse_date q (DateTime d) = Ok (Num v)) /\
  (exists q, init {[ "g" := Num v ]} = Ok q /\
             g_at parse_date q (DateTime d) = Ok (Num v)) /\
  (exists q, init {[ "bq" := Num v ]} = Ok q /\
             bq_at parse_date q (DateTime d) = Ok (Num v)) /\
  (exists q, init {[ "uci" := Num v ]} = Ok q /\
             uci_at parse_date q (DateTime d) = Ok (Num v)).
Proof.
  intros HT HT0 Hlam Hlam0 HA Hd Hv init. subst init.
  assert (IZR (Isotope.A iso) <> 0) as HA0.
  { apply IZR_le in HA. lra. }
  pose proof UCI_TO_BQ_nonzero as HU. pose proof N_AV_nonzero as HN.
  destruct (atoms_from_values (Isotope.A iso) lam v Hlam0 Hv HA)
    as (Ea & Eg & Eb & Eu).
  rewrite <- Hlam in Ea, Eg, Eb, Eu.
  pose proof (fun a => derived_evaluations parse_date
                (mk iso (Num T) (Num lam) d cd (Num a)) (DateTime d) a lam
                (atoms_at_ref_date iso T (Num lam) d cd a HT0) eq_refl) as Hder.
  split; [| split; [| split]].
  - eexists. split; [apply (init_from_atoms iso date d cd _ _ Hd Ea) |].
    rewrite HT, Hlam. apply atoms_at_ref_date. exact HT0.
  - eexists. split; [apply (init_from_atoms iso date d cd _ _ Hd Eg) |].
    rewrite HT, Hlam. destruct (Hder (v / IZR (Isotope.A iso) * N_AV))
      as (_ & _ & ->).
    cbn [isotope]. do 2 f_equal. field; repeat split; first [assumption | lra | unfold N_AV; lra | unfold UCI_TO_BQ; lra].
  - eexists. split; [apply (init_from_atoms iso date d cd _ _ Hd Eb) |].
    rewrite HT, Hlam. destruct (Hder (v / lam)) as (-> & _ & _).
    do 2 f_equal. field; repeat split; first [assumption | lra | unfold N_AV; lra | unfold UCI_TO_BQ; lra].
  - eexists. split; [apply (init_from_atoms iso date d cd _ _ Hd Eu) |].
    rewrite HT, Hlam. destruct (Hder (v * UCI_TO_BQ / lam)) as (_ & -> & _).
    do 2 f_equal. field; repeat split; first [assumption | lra | unfold N_AV; lra | unfold UCI_TO_BQ; lra].
Qed.

End KeywordRoundTrip.

(** ** The reference atom count is never negative *)

Lemma flt_0_Num (a : R) : flt (Num a) (Num 0) = false <-> 0 <= a.
Proof.
  cbn [flt]. unfold Rltb. destruct (Rlt_dec a 0); split; intros; try lra;
    try reflexivity; discriminate.
Qed.

Lemma fdiv_not_negative (x y z : float) :
  flt x (Num 0) = false -> flt (Num 0) y = true -> fdiv x y = Ok z ->
  flt z (Num 0) = false.
Proof.
  intros Hx Hy.
  destruct y as [b | | |]; try discriminate Hy.
  - cbn [flt] in Hy. unfold Rltb in Hy.
    destruct (Rlt_dec 0 b) as [Hb |]; [| discriminate].
    unfold fdiv. rewrite Reqb_false by lra.
    destruct x as [a | | |]; try discriminate Hx; intros [= <-].
    + apply flt_0_Num in Hx. apply flt_0_Num.
      apply Rmult_le_pos; [exact Hx |]. left. now apply Rinv_0_lt_compat.
    + unfold inf_times. rewrite Reqb_false by lra.
      rewrite (Rltb_true 0 b Hb). reflexivity.
    + reflexivity.
  - destruct x as [a | | |]; try discriminate Hx; intros [= <-];
      try reflexivity.
    apply flt_0_Num. lra.
Qed.

Lemma fmul_not_negative (x : float) (c : R) :
  flt x (Num 0) = false -> 0 < c -> flt (fmul x (Num c)) (Num 0) = false.
Proof.
  intros Hx Hc. destruct x as [a | | |]; try discriminate Hx.
  - apply flt_0_Num in Hx. apply flt_0_Num. nra.
  - cbn [fmul]. unfold inf_times. rewrite Reqb_false by lra.
    rewrite (Rltb_true 0 c Hc). reflexivity.
  - reflexivity.
Qed.

Lemma check_positive_qty_inv (v w : float) :
  IsotopeQuantity._check_positive_qty v = Ok w ->
  w = v /\ flt v (Num 0) = false.
Proof.
  unfold IsotopeQuantity._check_positive_qty.
  destruct (flt v 0) eqn:H; [discriminate |]. intros [= <-]. now split.
Qed.

Lemma atoms_from_not_negative (iso_A : Z) (dc : float) (kw : kwargs) (v : float) :
  (1 <= iso_A)%Z ->
  IsotopeQuantity.atoms_from iso_A dc kw = Ok v ->
  flt v (Num 0) = false.
Proof.
  intros HA. unfold IsotopeQuantity.atoms_from.
  assert (flt (Num 0) (Num (IZR iso_A)) = true) as HApos.
  { apply Rltb_true. apply IZR_le in HA. lra. }
  destruct (kw !! "atoms") as [a |].
  { intros H. apply check_positive_qty_inv in H as [-> H]. exact H. }
  destruct (kw !! "g") as [g |].
  { destruct (IsotopeQuantity._check_positive_qty g) as [w |] eqn:Hc;
      cbn [mbind result_bind]; [| discriminate].
    apply check_positive_qty_inv in Hc as [-> Hg].
    destruct (fdiv g (Num (IZR iso_A))) as [x |] eqn:Hx;
      cbn [mbind result_bind]; [| discriminate].
    intros [= <-]. apply fmul_not_negative; [| unfold N_AV; lra].
    eapply fdiv_not_negative; eassumption. }
  destruct (flt 0 dc) eqn:Hdc.
  - destruct (kw !! "bq") as [b |].
    { destruct (IsotopeQuantity._check_positive_qty b) as [w |] eqn:Hc;
        cbn [mbind result_bind]; [| discriminate].
      apply check_positive_qty_inv in Hc as [-> Hb].
      intros H. eapply fdiv_not_negative; eassumption. }
    destruct (kw !! "uci") as [u |].
    { destruct (IsotopeQuantity._check_positive_qty u) as [w |] eqn:Hc;
        cbn [mbind result_bind]; [| discriminate].
      apply check_positive_qty_inv in Hc as [-> Hu].
      intros H. eapply fdiv_not_negative; [| exact Hdc | exact H].
      apply fmul_not_negative; [exact Hu | unfold UCI_TO_BQ; lra]. }
    destruct (bool_decide _ || bool_decide _); discriminate.
  - destruct (bool_decide _ || bool_decide _); discriminate.
Qed.

(** X13. Every quantity the constructor builds for an isotope of mass number
    at least 1 has a reference atom count that is not negative, whatever
    keyword it was given in. *)
Theorem ref_atoms_not_negative
    (Isotope_halflife Isotope_decay_const : Isotope.t -> float)
    (parse_date : string -> option datetime) (now : datetime)
    (iso : Isotope.t) (date : option date_arg) (cd : bool) (kw : kwargs)
    (q : IsotopeQuantity.t) :
  (1 <= Isotope.A iso)%Z ->
  IsotopeQuantity.__init__ Isotope_halflife Isotope_decay_const parse_date now
    iso date cd kw = Ok q ->
  flt (IsotopeQuantity.ref_atoms q) (Num 0) = false.
Proof.
  intros HA Hq.
  destruct (init_inv _ _ _ _ _ _ _ _ _ Hq) as (d & v & _ & Hv & ->).
  cbn [IsotopeQuantity.ref_atoms]. eapply atoms_from_not_negative; eassumption.
Qed.

(** ** Activation in both directions *)

Section Activation.

Import NeutronIrradiation.

Variable Isotope_halflife : Isotope.t -> float.
Variable Isotope_decay_const : Isotope.t -> float.
Variable parse_date : string -> option datetime.
Variable now : datetime.

(** The saturation factor [1 - exp(-lambda * t)] of the float model. *)
Lemma saturation_factor (lam t : R) :
  fsub (Num 1) (np_exp (fmul (fneg (Num lam)) (Num t)))
  = Num (1 + - exp (- lam * t)).
Proof. reflexivity. Qed.

Lemma saturation_pos (lam t : R) : 0 < lam -> 0 < t -> 0 < 1 + - exp (- lam * t).
Proof.
  intros Hl Ht. assert (exp (- lam * t) < exp 0) as H.
  { apply exp_increasing. nra. }
  rewrite exp_0 in H. lra.
Qed.

Lemma atoms_at_stable_ref_date (iso : Isotope.t) (dc : float)
    (d : datetime) (cd : bool) (a : R) :
  IsotopeQuantity.atoms_at parse_date
    (IsotopeQuantity.mk iso PInf dc d cd (Num a)) (DateTime d)
  = Ok (Num a).
Proof.
  rewrite (atoms_at_unfold parse_date _ (DateTime d) d eq_refl)
    by (apply guard_not_before; cbn; lra).
  cbn [IsotopeQuantity.halflife IsotopeQuantity.ref_atoms].
  rewrite fdiv_PInf. cbn [mbind result_bind pow2 fmul].
  rewrite Rpower_2_0. do 2 f_equal. lra.
Qed.

(** The forward direction for a duration that is not zero. *)
Lemma activate_forward_duration (self : NeutronIrradiation.t)
    (phi b N0 lam : R) (initial_iso_q : IsotopeQuantity.t)
    (activated_iso : Isotope.t) :
  duration self <> 0 ->
  n_cm2_s self = Some (Num phi) ->
  isfinite (Isotope_halflife (IsotopeQuantity.isotope initial_iso_q)) = false ->
  IsotopeQuantity.atoms_at parse_date initial_iso_q (DateTime (stop_time self))
  = Ok (Num N0) ->
  Isotope_decay_const activated_iso = Num lam ->
  0 < lam ->
  0 <= phi * (b * 1.0e-24) * N0 * (1 + - exp (- lam * duration self)) ->
  activate Isotope_halflife Isotope_decay_const parse_date now
    self (Num b) (Some initial_iso_q) None None (Some activated_iso)
  = Ok (IsotopeQuantity.mk activated_iso (Isotope_halflife activated_iso)
          (Num lam) (stop_time self) true
          (Num (phi * (b * 1.0e-24) * N0
                * (1 + - exp (- lam * duration self)) / lam))).
Proof.
  intros Hdur Hphi Hst Hat Hlam Hpos Hbq. unfold activate.
  cbn [is_None negb xorb andb mbind result_bind isotope_of from_option].
  rewrite Hst, (Reqb_false _ _ Hdur).
  unfold n_cm2_s_times. rewrite Hphi, Hat.
  cbn [mbind result_bind from_option fmul]. rewrite Hlam.
  rewrite saturation_factor. cbn [fmul].
  unfold IsotopeQuantity.__init__, IsotopeQuantity.atoms_from.
  cbn [IsotopeQuantity._init_date IsotopeQuantity.handle_datetime mbind
       result_bind].
  rewrite Hlam.
  set (bq := Num (phi * (b * 1.0e-24) * N0
                  * (1 + - exp (- lam * duration self)))).
  change (({[ "bq" := bq ]} : kwargs) !! "atoms") with (@None float).
  change (({[ "bq" := bq ]} : kwargs) !! "g") with (@None float).
  change ({[ "bq" := bq ]} !! "bq") with (Some bq).
  cbn [flt]. rewrite (Rltb_true 0 lam Hpos). cbv beta iota.
  unfold IsotopeQuantity._check_positive_qty, bq. cbn [flt].
  rewrite Rltb_false by exact Hbq. cbn [mbind result_bind].
  rewrite fdiv_Num by lra. reflexivity.
Qed.

(** The backward direction for a duration that is not zero. *)
Lemma activate_backward_duration (self : NeutronIrradiation.t)
    (phi b A1 lam : R) (initial_iso : Isotope.t)
    (activated_iso_q : IsotopeQuantity.t) (activated_iso : Isotope.t) :
  duration self <> 0 ->
  n_cm2_s self = Some (Num phi) ->
  isfinite (Isotope_halflife initial_iso) = false ->
  IsotopeQuantity.bq_at parse_date activated_iso_q (DateTime (stop_time self))
  = Ok (Num A1) ->
  Isotope_decay_const activated_iso = Num lam ->
  phi * (b * 1.0e-24) * (1 + - exp (- lam * duration self)) <> 0 ->
  0 <= A1 / (phi * (b * 1.0e-24) * (1 + - exp (- lam * duration self))) ->
  activate Isotope_halflife Isotope_decay_const parse_date now
    self (Num b) None (Some initial_iso) (Some activated_iso_q)
    (Some activated_iso)
  = Ok (IsotopeQuantity.mk initial_iso (Isotope_halflife initial_iso)
          (Isotope_decay_const initial_iso) (stop_time self) true
          (Num (A1 / (phi * (b * 1.0e-24)
                      * (1 + - exp (- lam * duration self)))))).
Proof.
  intros Hdur Hphi Hst Hbq Hlam HD Hpos. unfold activate.
  cbn [is_None negb xorb andb mbind result_bind isotope_of from_option].
  rewrite Hst, (Reqb_false _ _ Hdur), Hbq.
  unfold n_cm2_s_times. rewrite Hphi.
  cbn [mbind result_bind from_option fmul]. rewrite Hlam.
  rewrite saturation_factor. cbn [fmul].
  rewrite fdiv_Num by exact HD. cbn [mbind result_bind].
  unfold IsotopeQuantity.__init__, IsotopeQuantity.atoms_from.
  cbn [IsotopeQuantity._init_date IsotopeQuantity.handle_datetime mbind
       result_bind].
  set (atoms := Num (A1 / (phi * (b * 1.0e-24)
                           * (1 + - exp (- lam * duration self))))).
  change ({[ "atoms" := atoms ]} !! "atoms") with (Some atoms).
  unfold IsotopeQuantity._check_positive_qty, atoms. cbn [flt].
  rewrite Rltb_false by exact Hpos. reflexivity.
Qed.

(** X14. Activation round trip for an irradiation with a fluence rate [phi]
    over a positive duration: from an activated quantity of activity
    [A1 >= 0] at the stop time, the backward call returns
    [N0 = A1 / (phi * sigma * (1 - exp(-lambda * t)))] atoms of the stable
    initial isotope at the stop time, and the forward call on that
    quantity returns a quantity of the activated isotope whose activity at
    the stop time is [A1]. *)
Theorem activate_round_trip (self : NeutronIrradiation.t)
    (phi b A1 lam T : R) (initial_iso activated_iso : Isotope.t)
    (activated_iso_q : IsotopeQuantity.t) :
  0 < duration self ->
  n_cm2_s self = Some (Num phi) -> 0 < phi -> 0 < b ->
  Isotope_halflife initial_iso = PInf ->
  Isotope_halflife activated_iso = Num T -> T <> 0 ->
  Isotope_decay_const activated_iso = Num lam -> 0 < lam ->
  IsotopeQuantity.bq_at parse_date activated_iso_q (DateTime (stop_time self))
  = Ok (Num A1) ->
  0 <= A1 ->
  exists (N0 : R) (q0 q1 : IsotopeQuantity.t),
    N0 = A1 / (phi * (b * 1.0e-24) * (1 + - exp (- lam * duration self))) /\
    activate Isotope_halflife Isotope_decay_const parse_date now
      self (Num b) None (Some initial_iso) (Some activated_iso_q)
      (Some activated_iso) = Ok q0 /\
    IsotopeQuantity.ref_atoms q0 = Num N0 /\
    IsotopeQuantity.ref_date q0 = stop_time self /\
    activate Isotope_halflife Isotope_decay_const parse_date now
      self (Num b) (Some q0) None None (Some activated_iso) = Ok q1 /\
    IsotopeQuantity.isotope q1 = activated_iso /\
    IsotopeQuantity.bq_at parse_date q1 (DateTime (stop_time self))
    = Ok (Num A1).
Proof.
  intros Hdur Hphi Hphi0 Hb Hst HT HT0 Hlam Hlam0 Hbq HA1.
  pose proof (saturation_pos lam (duration self) Hlam0 Hdur) as Hsat.
  set (D := phi * (b * 1.0e-24) * (1 + - exp (- lam * duration self))).
  assert (0 < D) as HD.
  { unfold D. apply Rmult_lt_0_compat; [| exact Hsat].
    apply Rmult_lt_0_compat; lra. }
  assert (0 <= A1 / D) as HN0.
  { apply Rmult_le_pos; [exact HA1 |]. left. now apply Rinv_0_lt_compat. }
  assert (phi * (b * 1.0e-24) * (A1 / D)
          * (1 + - exp (- lam * duration self)) = A1) as Hback.
  { unfold D. field. fold D. split; [| split]; lra. }
  exists (A1 / D). eexists. eexists.
  split; [reflexivity |]. split.
  { apply (activate_backward_duration self phi b A1 lam);
      try assumption; fold D; try lra.
    now rewrite Hst. }
  split; [reflexivity |]. split; [reflexivity |]. split.
  { apply (activate_forward_duration self phi b (A1 / D) lam);
      try assumption; try lra.
    - cbn [IsotopeQuantity.isotope]. now rewrite Hst.
    - rewrite Hst. apply atoms_at_stable_ref_date. }
  split; [reflexivity |].
  rewrite HT, Hback. apply forward_activity_at_stop; lra.
Qed.

(** X15. An irradiation built from a total fluence [n_cm2] has no fluence
    rate; when its duration is not zero, [activate] on a stable initial
    isotope raises [TypeError]: in the forward direction before anything
    is evaluated, in the backward direction once the activity at the stop
    time is evaluated. *)
Theorem activate_without_rate (start stop : date_arg)
    (n : float) (rate : option float) (self : NeutronIrradiation.t) :
  __init__ parse_date start stop (Some n) rate = Ok self ->
  duration self <> 0 ->
  n_cm2_s self = None /\
  (forall (barns : float) (initial_iso_q : IsotopeQuantity.t)
          (activated_iso : Isotope.t),
     isfinite (Isotope_halflife (IsotopeQuantity.isotope initial_iso_q)) = false ->
     activate Isotope_halflife Isotope_decay_const parse_date now
       self barns (Some initial_iso_q) None None (Some activated_iso)
     = Raise TypeError) /\
  (forall (barns A1 : float) (initial_iso : Isotope.t)
          (activated_iso_q : IsotopeQuantity.t) (activated_iso : option Isotope.t),
     isfinite (Isotope_halflife initial_iso) = false ->
     IsotopeQuantity.bq_at parse_date activated_iso_q
       (DateTime (stop_time self)) = Ok A1 ->
     activate Isotope_halflife Isotope_decay_const parse_date now
       self barns None (Some initial_iso) (Some activated_iso_q) activated_iso
     = Raise TypeError).
Proof.
  intros Hinit Hdur.
  assert (n_cm2_s self = None) as Hrate.
  { unfold __init__ in Hinit.
    destruct (IsotopeQuantity.handle_datetime parse_date start);
      cbn [mbind result_bind] in Hinit; [| discriminate].
    destruct (IsotopeQuantity.handle_datetime parse_date stop);
      cbn [mbind result_bind] in Hinit; [| discriminate].
    destruct (Rltb _ _); [discriminate |].
    destruct rate; cbn [is_None xorb negb] in Hinit; [discriminate |].
    injection Hinit as <-. reflexivity. }
  split; [exact Hrate |]. split.
  - intros barns q act Hst. unfold activate.
    cbn [is_None negb xorb andb mbind result_bind isotope_of from_option].
    rewrite Hst, (Reqb_false _ _ Hdur).
    unfold n_cm2_s_times. rewrite Hrate. reflexivity.
  - intros barns A1 i0 q1 act Hst Hbq. unfold activate.
    destruct act as [a |];
      cbn [is_None negb xorb andb mbind result_bind isotope_of from_option];
      rewrite Hst, (Reqb_false _ _ Hdur), Hbq;
      unfold n_cm2_s_times; rewrite Hrate; reflexivity.
Qed.

(** X16. The forward direction of a zero-duration irradiation of fluence [n]:
    from [N0] atoms of a stable isotope at the stop time it returns a
    quantity of the activated isotope, anchored at the stop time, whose
    activity there is [n * sigma * N0 * lambda]. *)
Theorem activate_forward_pulse (self : NeutronIrradiation.t)
    (b n N0 lam T : R) (initial_iso_q : IsotopeQuantity.t)
    (activated_iso : Isotope.t) :
  duration self = 0 ->
  n_cm2 self = Num n ->
  isfinite (Isotope_halflife (IsotopeQuantity.isotope initial_iso_q)) = false ->
  IsotopeQuantity.atoms_at parse_date initial_iso_q (DateTime (stop_time self))
  = Ok (Num N0) ->
  Isotope_halflife activated_iso = Num T -> T <> 0 ->
  Isotope_decay_const activated_iso = Num lam -> 0 < lam ->
  0 <= n * (b * 1.0e-24) * N0 * lam ->
  exists q1 : IsotopeQuantity.t,
    activate Isotope_halflife Isotope_decay_const parse_date now
      self (Num b) (Some initial_iso_q) None None (Some activated_iso) = Ok q1 /\
    IsotopeQuantity.isotope q1 = activated_iso /\
    IsotopeQuantity.ref_date q1 = stop_time self /\
    IsotopeQuantity.bq_at parse_date q1 (DateTime (stop_time self))
    = Ok (Num (n * (b * 1.0e-24) * N0 * lam)).
Proof.
  intros Hdur Hn Hst Hat HT HT0 Hlam Hlam0 Hbq.
  eexists. split.
  { apply (activate_forward_zero_duration Isotope_halflife Isotope_decay_const
             parse_date now self b n N0 lam); assumption. }
  split; [reflexivity |]. split; [reflexivity |].
  rewrite HT. apply forward_activity_at_stop; lra.
Qed.

End Activation.

(** ** The further properties on concrete instances *)

Lemma sample_lam_pos : 0 < ln 2 / 54000.
Proof. apply Rdiv_lt_0_compat; [apply ln_2_pos | lra]. Qed.

Lemma Isotope_init_bounds_witness :
  (1 <= 99)%Z /\ 56%Z = (99 - 43)%Z /\ (0 <= 56)%Z /\ (0 <= 1)%Z.
Proof.
  exact (Isotope_init_bounds PeriodicTable.lookup [PStr "Tc-99m"]
           (Isotope.mk (mkElement "Tc" "Technetium" 43) 99 56 1 "m")
           ltac:(vm_compute; reflexivity)).
Defined.

Lemma split_dangling_hyphen_witness :
  _split_element_mass PeriodicTable.lookup "-238" = Raise IndexError /\
  _split_element_mass PeriodicTable.lookup "U-" = Raise IndexError.
Proof.
  split.
  - exact (proj1 (split_dangling_hyphen PeriodicTable.lookup "238") eq_refl).
  - exact (proj2 (split_dangling_hyphen PeriodicTable.lookup "U") eq_refl).
Defined.

Lemma split_one_kind_witness :
  _split_element_mass PeriodicTable.lookup "Uranium"
  = Raise (IsotopeError "Could not find element for isotope").
Proof.
  exact (split_one_kind PeriodicTable.lookup "Uranium" (or_introl eq_refl)).
Defined.

Lemma split_unhyphenated_result_witness :
  ("Hf", "178M2") = ("", "") \/
  exists tok, resolved_split PeriodicTable.lookup "178M2HF" tok "Hf" "178M2".
Proof.
  exact (proj1 (split_unhyphenated_result PeriodicTable.lookup "178M2HF"
                  eq_refl)).
Defined.

Lemma split_mass_isomer_accepted_witness :
  exists M : Z, Isotope._init_m (PStr "m2") = Ok ("m2", M) /\ (0 <= M)%Z.
Proof.
  exact (split_mass_isomer_accepted "178M2" 178 "m2" eq_refl
           ltac:(vm_compute; reflexivity)).
Defined.

Lemma Isotope_str_round_trip_witness :
  parse_isotope PeriodicTable.lookup (Isotope.__str__ Hf_178m2)
  = Ok ("Hf", 178%Z, "m2") /\
  Isotope.__init__ PeriodicTable.lookup [PStr (Isotope.__str__ Hf_178m2)]
  = Ok Hf_178m2.
Proof.
  apply (Isotope_str_round_trip PeriodicTable.lookup Hf_178m2);
    cbn [Hf_178m2 Isotope.A Isotope.N Isotope.M Isotope.m Isotope.element
         symbol atomic_Z];
    try lia; vm_compute; reflexivity.
Defined.

Lemma split_hyphenated_as_written_witness :
  _split_element_mass PeriodicTable.lookup "TC-99M" = Ok ("TC", "99M") /\
  _split_element_mass PeriodicTable.lookup "99M-TC" = Ok ("TC", "99M").
Proof.
  exact (split_hyphenated_as_written PeriodicTable.lookup "TC" "99M"
           (mkElement "Tc" "Technetium" 43) eq_refl
           ltac:(vm_compute; reflexivity) eq_refl eq_refl).
Defined.

Lemma decays_from_bounds_witness :
  exists d : R,
    IsotopeQuantity.decays_from no_date_strings eight_Na_24
      (DateTime 0) (DateTime 54000) = Ok (Num d) /\
    0 <= d <= 8.
Proof.
  apply (decays_from_bounds no_date_strings eight_Na_24 (DateTime 0)
           (DateTime 54000) 0 54000 54000 8 eq_refl ltac:(lra) eq_refl
           ltac:(lra) eq_refl eq_refl);
    cbn [IsotopeQuantity.ref_date eight_Na_24]; lra.
Defined.

Lemma atoms_at_reanchored_witness :
  IsotopeQuantity.atoms_at no_date_strings
    (IsotopeQuantity.mk Na_24 (Num 54000) (Num (ln 2 / 54000)) 54000 true
       (Num (8 * Rpower 2 (- (54000 - 0) / 54000))))
    (DateTime 108000)
  = IsotopeQuantity.atoms_at no_date_strings eight_Na_24 (DateTime 108000).
Proof.
  apply (atoms_at_reanchored no_date_strings eight_Na_24 54000 108000 54000 8
           (Num (8 * Rpower 2 (- (54000 - 0) / 54000)))
           eq_refl ltac:(lra) eq_refl);
    [cbn [IsotopeQuantity.ref_date eight_Na_24]; lra | lra |].
  apply (atoms_at_finite no_date_strings eight_Na_24 (DateTime 54000)
           54000 54000 8 eq_refl);
    [apply guard_not_before; cbn [IsotopeQuantity.ref_date eight_Na_24]; lra
    | reflexivity | lra | reflexivity].
Defined.


Lemma keyword_round_trip_witness :
  exists q,
    IsotopeQuantity.__init__ sample_halflife sample_decay_const
      no_date_strings 0 Na_24 (Some (DateTime 7)) true {[ "bq" := Num 5 ]}
    = Ok q /\
    IsotopeQuantity.bq_at no_date_strings q (DateTime 7) = Ok (Num 5).
Proof.
  exact (proj1 (proj2 (proj2
    (keyword_round_trip sample_halflife sample_decay_const no_date_strings 0
       Na_24 (Some (DateTime 7)) 7 true 54000 (ln 2 / 54000) 5
       eq_refl ltac:(lra) eq_refl sample_lam_pos ltac:(cbn; lia) eq_refl
       ltac:(lra))))).
Defined.

Lemma init_one_atom :
  IsotopeQuantity.__init__ sample_halflife sample_decay_const no_date_strings 0
    Na_23 None true {[ "atoms" := Num 1 ]}
  = Ok (IsotopeQuantity.mk Na_23 PInf (Num 0) 0 true (Num 1)).
Proof.
  unfold IsotopeQuantity.__init__, IsotopeQuantity.atoms_from.
  cbn [IsotopeQuantity._init_date mbind result_bind].
  change ({[ "atoms" := Num 1 ]} !! "atoms") with (Some (Num 1)).
  cbv beta iota. rewrite check_nonneg by lra. reflexivity.
Qed.

Lemma ref_atoms_not_negative_witness : flt (Num 1) (Num 0) = false.
Proof.
  exact (ref_atoms_not_negative sample_halflife sample_decay_const
           no_date_strings 0 Na_23 None true {[ "atoms" := Num 1 ]} _
           ltac:(cbn; lia) init_one_atom).
Defined.

Lemma activate_round_trip_witness :
  exists (N0 : R) (q0 q1 : IsotopeQuantity.t),
    N0 = 8 * (ln 2 / 54000)
         / (1e15 * (0.5 * 1.0e-24) * (1 + - exp (- (ln 2 / 54000) * 10))) /\
    NeutronIrradiation.activate sample_halflife sample_decay_const
      no_date_strings 0 exposure (Num 0.5) None (Some Na_23)
      (Some eight_Na_24) (Some Na_24) = Ok q0 /\
    IsotopeQuantity.ref_atoms q0 = Num N0 /\
    IsotopeQuantity.ref_date q0 = 0 /\
    NeutronIrradiation.activate sample_halflife sample_decay_const
      no_date_strings 0 exposure (Num 0.5) (Some q0) None None (Some Na_24)
    = Ok q1 /\
    IsotopeQuantity.isotope q1 = Na_24 /\
    IsotopeQuantity.bq_at no_date_strings q1 (DateTime 0)
    = Ok (Num (8 * (ln 2 / 54000))).
Proof.
  pose proof sample_lam_pos as Hlam.
  apply (activate_round_trip sample_halflife sample_decay_const
           no_date_strings 0 exposure 1e15 0.5 (8 * (ln 2 / 54000))
           (ln 2 / 54000) 54000 Na_23 Na_24 eight_Na_24);
    try reflexivity; try (cbn [NeutronIrradiation.duration exposure]; lra);
    try lra.
  apply bq_at_eight_Na_24_start.
Defined.

Lemma init_fluence_only :
  NeutronIrradiation.__init__ no_date_strings (DateTime 0) (DateTime 10)
    (Some (Num 5)) None
  = Ok (NeutronIrradiation.mk 0 10 (10 - 0) (Num 5) None).
Proof.
  unfold NeutronIrradiation.__init__.
  cbn [IsotopeQuantity.handle_datetime mbind result_bind].
  rewrite Rltb_false by lra. reflexivity.
Qed.

Lemma activate_without_rate_witness :
  NeutronIrradiation.activate sample_halflife sample_decay_const
    no_date_strings 0 (NeutronIrradiation.mk 0 10 (10 - 0) (Num 5) None)
    (Num 0.5) (Some ten_Na_23) None None (Some Na_24)
  = Raise TypeError.
Proof.
  refine (proj1 (proj2 (activate_without_rate sample_halflife
    sample_decay_const no_date_strings 0 (DateTime 0) (DateTime 10) (Num 5)
    None _ init_fluence_only _)) (Num 0.5) ten_Na_23 Na_24 eq_refl).
  cbn [NeutronIrradiation.duration]. lra.
Defined.

Lemma activate_forward_pulse_witness :
  exists q1 : IsotopeQuantity.t,
    NeutronIrradiation.activate sample_halflife sample_decay_const
      no_date_strings 0 pulse (Num 0.5) (Some ten_Na_23) None None (Some Na_24)
    = Ok q1 /\
    IsotopeQuantity.isotope q1 = Na_24 /\
    IsotopeQuantity.ref_date q1 = 0 /\
    IsotopeQuantity.bq_at no_date_strings q1 (DateTime 0)
    = Ok (Num (1e15 * (0.5 * 1.0e-24) * 10 * (ln 2 / 54000))).
Proof.
  pose proof sample_lam_pos as Hlam.
  apply (activate_forward_pulse sample_halflife sample_decay_const
           no_date_strings 0 pulse 0.5 1e15 10 (ln 2 / 54000) 54000
           ten_Na_23 Na_24);
    try reflexivity; try lra; try apply atoms_at_stable_ref_date; try nra.
Defined.
